(** * The sequential tool-orchestration protocol of [backend/ai_generator.py]

    A shallow embedding of [AIGenerator]: the request the generator builds,
    the bounded tool-use loop, the per-call error isolation of
    [_execute_tools], the legacy single-round handler and the fallback edge
    between the two.

    The model client ([self.client.messages.create]) and the tool manager
    ([tool_manager.execute_tool]) are external collaborators.  They are
    arbitrary functions over an abstract [World]: they may keep state and
    they may raise.  Python lists that are mutated in place (the [messages]
    list of a request) live in an explicit store, so that copying and
    aliasing are visible.  Every model call, tool call and [print] is
    recorded in a trace, which is what the statements about "how many calls"
    talk about. *)

From Stdlib Require Import ZArith String List Ascii Decimal DecimalString Lia.
From stdpp Require Import base option list strings.

Local Open Scope string_scope.
Local Open Scope list_scope.

(** ** Data model *)

(** A content block of a model response.  The source is duck-typed: it reads
    [.type] on every block, [.name], [.input] and [.id] on the blocks whose
    type is ["tool_use"], and [.text] on the first block of a final
    response.  A block may lack the [text] attribute (the tool-use blocks of
    the client library do): reading it then raises [AttributeError], whose
    message names the class of the block, [type(block).__name__]. *)
Module Block.
Record t := mk {
  class_name : string;
  type : string;
  text : option string;
  id : string;
  name : string;
  input : list (string * string)
}.
End Block.

(** One entry of the list returned by [_execute_tools]:
    [{"type": "tool_result", "tool_use_id": ..., "content": ...}]. *)
Module ToolResult.
Record t := mk {
  type : string;
  tool_use_id : string;
  content : string
}.
End ToolResult.

(** A conversation turn [{"role": ..., "content": ...}].  The content is the
    query text, the content blocks of a model response, or a list of tool
    results. *)
Module Message.
Inductive body :=
| Text (s : string)
| Blocks (bs : list Block.t)
| Results (rs : list ToolResult.t).

Record t := mk {
  role : string;
  content : body
}.
End Message.

(** A model response: the two attributes the generator reads. *)
Module Response.
Record t := mk {
  content : list Block.t;
  stop_reason : string
}.
End Response.

(** A tool definition as advertised to the model. *)
Module Tool.
Record t := mk {
  name : string;
  description : string;
  input_schema : string
}.
End Tool.

(** The dictionary [{"type": "auto"}]. *)
Module ToolChoice.
Record t := mk { type : string }.
End ToolChoice.

(** Store addresses of the mutable message lists. *)
Definition loc := nat.

(** The keyword dictionary passed to [messages.create].  A key may be absent
    ([None]); ["messages"] holds a reference to a list in the store. *)
Module Params.
Record t := mk {
  model : option string;
  temperature : option Z;
  max_tokens : option Z;
  messages : option loc;
  system : option string;
  tools : option (list Tool.t);
  tool_choice : option ToolChoice.t
}.

(** [{**p, "messages": l}] *)
Definition with_messages (l : loc) (p : t) : t :=
  mk (model p) (temperature p) (max_tokens p) (Some l) (system p)
     (tools p) (tool_choice p).

(** [{**p, "system": s}] *)
Definition with_system (s : string) (p : t) : t :=
  mk (model p) (temperature p) (max_tokens p) (messages p) (Some s)
     (tools p) (tool_choice p).

(** [p["tools"] = ts] *)
Definition with_tools (ts : list Tool.t) (p : t) : t :=
  mk (model p) (temperature p) (max_tokens p) (messages p) (system p)
     (Some ts) (tool_choice p).

(** [p["tool_choice"] = c] *)
Definition with_tool_choice (c : ToolChoice.t) (p : t) : t :=
  mk (model p) (temperature p) (max_tokens p) (messages p) (system p)
     (tools p) (Some c).
End Params.

(** Python exceptions (instances of [Exception]): the class and [str(e)]. *)
Record PyExn := mkExn { exn_class : string; exn_str : string }.

Definition sq : string := String (ascii_of_nat 39) EmptyString.
Definition dq : string := String (ascii_of_nat 34) EmptyString.
Definition nl : string := String (ascii_of_nat 10) EmptyString.

Definition KeyError (key : string) : PyExn :=
  mkExn "KeyError" (sq +:+ key +:+ sq).
Definition IndexError : PyExn :=
  mkExn "IndexError" "list index out of range".
Definition AttributeError (class_name attr : string) : PyExn :=
  mkExn "AttributeError"
    (sq +:+ class_name +:+ sq +:+ " object has no attribute "
     +:+ sq +:+ attr +:+ sq).

(** The outcome of a Python expression: a value or a raised exception. *)
Inductive Result (A : Type) :=
| Ok (a : A)
| Raise (e : PyExn).
Arguments Ok {A} a.
Arguments Raise {A} e.

(** What the outside world observes, in order. *)
Inductive Event :=
| ModelCall (params : Params.t) (messages : list Message.t)
| ToolCall (name : string) (input : list (string * string))
| Printed (line : string).

Definition is_model_call (ev : Event) : bool :=
  match ev with ModelCall _ _ => true | _ => false end.


(** [f"{n}"] for an integer. *)
Definition str_of_int (n : Z) : string :=
  NilZero.string_of_int (Z.to_int n).

(** ** The fixed system prompt *)

Definition SYSTEM_PROMPT : string :=
  String.concat nl [
  " You are an AI assistant specialized in course materials and educational content with access to comprehensive tools for course information.";
  EmptyString;
  "Available Tools:";
  "1. **search_course_content**: For searching specific course content and materials";
  "2. **get_course_outline**: For getting course structure, including title, course link, and complete lesson list with numbers and titles";
  EmptyString;
  "Tool Usage Guidelines:";
  "- Use **search_course_content** for questions about specific course content or detailed educational materials";
  "- Use **get_course_outline** for questions about course structure, lesson lists, course overview, or syllabus information";
  "- **Up to 2 tool call rounds per query maximum** - you can make additional tool calls after seeing initial results";
  "- Synthesize tool results into accurate, fact-based responses";
  "- If tools yield no results, state this clearly without offering alternatives";
  EmptyString;
  "Sequential Tool Strategy:";
  "- First round: Use tools to gather initial information";
  "- Second round (optional): Refine search or gather additional details based on first round results";
  "- Consider whether additional tool calls will improve your response quality";
  "- Examples: Get course outline first, then search specific lessons; Search one topic, then compare with another";
  EmptyString;
  "Response Protocol:";
  "- **General knowledge questions**: Answer using existing knowledge without searching";
  "- **Course-specific questions**: Search first, then answer";
  "- **No meta-commentary**:";
  " - Provide direct answers only — no reasoning process, search explanations, or question-type analysis";
  " - Do not mention " +:+ dq +:+ "based on the search results" +:+ dq;
  EmptyString;
  EmptyString;
  "All responses must be:";
  "1. **Brief, Concise and focused** - Get to the point quickly";
  "2. **Educational** - Maintain instructional value";
  "3. **Clear** - Use accessible language";
  "4. **Example-supported** - Include relevant examples when they aid understanding";
  "Provide only the direct answer to what was asked.";
  EmptyString ].

(** ** The generator *)

Section Generator.

(** The state of the external collaborators. *)
Context {World : Type}.

(** [client.messages.create]: sees the keyword dictionary [params] and
    the current contents of its [messages] list, may change the outside
    world, and returns a response or raises.  It does not write to the
    lists of the caller. *)
Definition Client : Type :=
  Params.t -> list Message.t -> World -> Result Response.t * World.

(** [tool_manager.execute_tool(name, **input)]. *)
Definition ToolManager : Type :=
  string -> list (string * string) -> World -> Result string * World.

(** [self.client] and [self.model]. *)
Variable client : Client.
Variable model : string.

(** Program state: the store of message lists, the outside world, and
    the trace of observable events so far. *)
Record State := mkState {
  heap : list (list Message.t);
  world : World;
  trace : list Event
}.

(** *** A state and exception monad *)

Definition M (A : Type) : Type := State -> Result A * State.

Definition ret {A} (a : A) : M A := fun st => (Ok a, st).

Definition raise {A} (e : PyExn) : M A := fun st => (Raise e, st).

Definition bind {A B} (m : M A) (k : A -> M B) : M B :=
  fun st =>
    match m st with
    | (Ok a, st') => k a st'
    | (Raise e, st') => (Raise e, st')
    end.

(** [try: body except Exception as e: handler(e)].  The effects of the
    body up to the raise are kept. *)
Definition try_except {A} (body : M A) (handler : PyExn -> M A) : M A :=
  fun st =>
    match body st with
    | (Ok a, st') => (Ok a, st')
    | (Raise e, st') => handler e st'
    end.

Notation "'let*' x := m 'in' k" := (bind m (fun x => k))
  (at level 10, x name, m at level 99, k at level 200).
Notation "m ;; k" := (bind m (fun _ => k))
  (at level 100, right associativity).

(** *** Primitive operations *)

Definition log (ev : Event) : M unit :=
  fun st => (Ok tt, mkState (heap st) (world st) (trace st ++ [ev])).

(** [d[key]] on a keyword dictionary. *)
Definition getitem {A} (key : string) (field : option A) : M A :=
  match field with
  | Some v => ret v
  | None => raise (KeyError key)
  end.

(** The contents of the list at [l]. *)
Definition deref (h : list (list Message.t)) (l : loc) : list Message.t :=
  default [] (h !! l).

(** A list display [[m1, ..., mn]]: a fresh list in the store. *)
Definition new_list (ms : list Message.t) : M loc :=
  fun st =>
    (Ok (length (heap st)),
     mkState (heap st ++ [ms]) (world st) (trace st)).

(** [l.copy()]: a fresh list with the same elements. *)
Definition list_copy (l : loc) : M loc :=
  fun st => new_list (deref (heap st) l) st.

(** [l.append(m)]: in place. *)
Definition list_append (l : loc) (m : Message.t) : M unit :=
  fun st =>
    (Ok tt,
     mkState (alter (fun ms => ms ++ [m]) l (heap st)) (world st) (trace st)).

(** The messages a request carries when it is sent. *)
Definition messages_of (p : Params.t) (h : list (list Message.t))
  : list Message.t :=
  match Params.messages p with
  | Some l => deref h l
  | None => []
  end.

(** [self.client.messages.create], called with the keywords of [params] *)
Definition create (params : Params.t) : M Response.t :=
  fun st =>
    let msgs := messages_of params (heap st) in
    let (r, w) := client params msgs (world st) in
    (r, mkState (heap st) w (trace st ++ [ModelCall params msgs])).

(** [tool_manager.execute_tool(name, **input)] *)
Definition execute_tool (tool_manager : ToolManager)
    (name : string) (input : list (string * string)) : M string :=
  fun st =>
    let (r, w) := tool_manager name input (world st) in
    (r, mkState (heap st) w (trace st ++ [ToolCall name input])).

Definition print (line : string) : M unit := log (Printed line).

(** [response.content[0].text] *)
Definition first_text (response : Response.t) : M string :=
  match Response.content response with
  | [] => raise IndexError
  | block :: _ =>
      match Block.text block with
      | Some t => ret t
      | None => raise (AttributeError (Block.class_name block) "text")
      end
  end.

(** [self.base_params] *)
Definition self_base_params : Params.t :=
  Params.mk (Some model) (Some 0%Z) (Some 800%Z) None None None None.

(** *** [_execute_tools] *)

Definition tool_result (block : Block.t) (content : string) : ToolResult.t :=
  ToolResult.mk "tool_result" (Block.id block) content.

(** The body of the [for] loop over [response.content], with the
    accumulator [tool_results]. *)
Fixpoint execute_blocks (tool_manager : ToolManager)
    (blocks : list Block.t) (tool_results : list ToolResult.t)
  : M (list ToolResult.t) :=
  match blocks with
  | [] => ret tool_results
  | content_block :: rest =>
      if String.eqb (Block.type content_block) "tool_use" then
        let* tool_results :=
          try_except
            (let* out := execute_tool tool_manager
                           (Block.name content_block)
                           (Block.input content_block) in
             ret (tool_results ++ [tool_result content_block out]))
            (fun e =>
               ret (tool_results ++
                    [tool_result content_block
                       ("Tool execution error: " +:+ exn_str e)])) in
        execute_blocks tool_manager rest tool_results
      else
        execute_blocks tool_manager rest tool_results
  end.

Definition _execute_tools (response : Response.t)
    (tool_manager : ToolManager) : M (list ToolResult.t) :=
  execute_blocks tool_manager (Response.content response) [].

(** What a run of the [for] loop is to achieve, block by block: a block
    that is not a tool use is skipped; a tool-use block is executed in the
    world its predecessors left and contributes exactly one result, the
    tool's output or the error text.  [tool_run tm w blocks results evs w']
    relates the start world, the blocks, the results in order, the tool
    calls in order, and the end world. *)
Inductive tool_run (tool_manager : ToolManager)
  : World -> list Block.t -> list ToolResult.t -> list Event -> World -> Prop :=
| run_done w :
    tool_run tool_manager w [] [] [] w
| run_skip w block rest results evs w' :
    Block.type block <> "tool_use" ->
    tool_run tool_manager w rest results evs w' ->
    tool_run tool_manager w (block :: rest) results evs w'
| run_ok w block rest out w1 results evs w' :
    Block.type block = "tool_use" ->
    tool_manager (Block.name block) (Block.input block) w = (Ok out, w1) ->
    tool_run tool_manager w1 rest results evs w' ->
    tool_run tool_manager w (block :: rest)
      (ToolResult.mk "tool_result" (Block.id block) out :: results)
      (ToolCall (Block.name block) (Block.input block) :: evs) w'
| run_error w block rest e w1 results evs w' :
    Block.type block = "tool_use" ->
    tool_manager (Block.name block) (Block.input block) w = (Raise e, w1) ->
    tool_run tool_manager w1 rest results evs w' ->
    tool_run tool_manager w (block :: rest)
      (ToolResult.mk "tool_result" (Block.id block)
         ("Tool execution error: " +:+ exn_str e) :: results)
      (ToolCall (Block.name block) (Block.input block) :: evs) w'.

Definition is_tool_use (block : Block.t) : bool :=
  String.eqb (Block.type block) "tool_use".

(** The tool-use blocks of a response, in order. *)
Definition tool_uses (response : Response.t) : list Block.t :=
  List.filter is_tool_use (Response.content response).

(** *** [_handle_sequential_tool_execution] *)

(** How the [while] loop is left: by the [return] inside it, or by
    falling out of it (guard false, or [break]). *)
Inductive LoopExit :=
| Returned (s : string)
| Fell (current_response : Response.t) (round_count : Z).

Definition loop_guard (max_rounds round_count : Z)
    (current_response : Response.t) : bool :=
  (round_count <? max_rounds)%Z
  && String.eqb (Response.stop_reason current_response) "tool_use".

(** The [while] loop.  [fuel] bounds the number of iterations; the
    handler supplies [max_rounds] of it, which the guard never lets the
    loop use up (see [while_rounds_fuel]). *)
Fixpoint while_rounds (fuel : nat) (base_params : Params.t)
    (tool_manager : ToolManager) (max_rounds : Z) (messages : loc)
    (round_count : Z) (current_response : Response.t) : M LoopExit :=
  match fuel with
  | O => ret (Fell current_response round_count)
  | S fuel' =>
      if loop_guard max_rounds round_count current_response then
        let round_count := (round_count + 1)%Z in
        list_append messages
          (Message.mk "assistant"
             (Message.Blocks (Response.content current_response))) ;;
        let* tool_results := _execute_tools current_response tool_manager in
        match tool_results with
        | [] => ret (Fell current_response round_count)
        | _ :: _ =>
            list_append messages
              (Message.mk "user" (Message.Results tool_results)) ;;
            let* system := getitem "system" (Params.system base_params) in
            let next_params :=
              Params.with_system system
                (Params.with_messages messages base_params) in
            let* next :=
              try_except
                (let* r := create next_params in ret (inl r))
                (fun e =>
                   ret (inr ("Error in tool execution round "
                             +:+ str_of_int round_count +:+ ": "
                             +:+ exn_str e))) in
            match next with
            | inl response =>
                while_rounds fuel' base_params tool_manager max_rounds
                  messages round_count response
            | inr error_text => ret (Returned error_text)
            end
        end
      else ret (Fell current_response round_count)
  end.

(** The [return] after the loop. *)
Definition final_text (current_response : Response.t) : M string :=
  match Response.content current_response with
  | [] => ret "No response generated"
  | _ :: _ => first_text current_response
  end.

Definition finish (exit : LoopExit) : M string :=
  match exit with
  | Returned s => ret s
  | Fell current_response _ => final_text current_response
  end.

Definition _handle_sequential_tool_execution
    (initial_response : Response.t) (base_params : Params.t)
    (tool_manager : ToolManager) (max_rounds : Z) : M string :=
  let* original := getitem "messages" (Params.messages base_params) in
  let* messages := list_copy original in
  let* exit := while_rounds (Z.to_nat max_rounds) base_params tool_manager
            max_rounds messages 0%Z initial_response in
  finish exit.

(** *** [_handle_tool_execution] (legacy, single round) *)

Definition _handle_tool_execution
    (initial_response : Response.t) (base_params : Params.t)
    (tool_manager : ToolManager) : M string :=
  let* original := getitem "messages" (Params.messages base_params) in
  let* messages := list_copy original in
  list_append messages
    (Message.mk "assistant"
       (Message.Blocks (Response.content initial_response))) ;;
  let* tool_results := _execute_tools initial_response tool_manager in
  match tool_results with
  | [] => ret tt
  | _ :: _ =>
      list_append messages (Message.mk "user" (Message.Results tool_results))
  end ;;
  let* system := getitem "system" (Params.system base_params) in
  let final_params :=
    Params.with_system system
      (Params.with_messages messages self_base_params) in
  let* final_response := create final_params in
  first_text final_response.

(** *** [generate_response] *)

(** The system text: the prompt alone, or the prompt followed by the
    history when a non-empty history is given. *)
Definition system_content (conversation_history : option string) : string :=
  match conversation_history with
  | Some (String c rest) =>
      SYSTEM_PROMPT +:+ nl +:+ nl +:+ "Previous conversation:" +:+ nl
        +:+ String c rest
  | _ => SYSTEM_PROMPT
  end.

(** [api_params] once the optional tools are added. *)
Definition api_params_for (messages : loc)
    (conversation_history : option string)
    (tools : option (list Tool.t)) : Params.t :=
  let api_params :=
    Params.with_system (system_content conversation_history)
      (Params.with_messages messages self_base_params) in
  match tools with
  | Some (t :: ts) =>
      Params.with_tool_choice (ToolChoice.mk "auto")
        (Params.with_tools (t :: ts) api_params)
  | _ => api_params
  end.

Definition generate_response (query : string)
    (conversation_history : option string)
    (tools : option (list Tool.t))
    (tool_manager : option ToolManager) : M string :=
  let* messages := new_list [Message.mk "user" (Message.Text query)] in
  let api_params := api_params_for messages conversation_history tools in
  let* response := create api_params in
  match (if String.eqb (Response.stop_reason response) "tool_use"
         then tool_manager else None) with
  | Some tm =>
      try_except
        (_handle_sequential_tool_execution response api_params tm 2%Z)
        (fun e =>
           print ("Sequential tool execution failed, falling back: "
                  +:+ exn_str e) ;;
           _handle_tool_execution response api_params tm)
  | None => first_text response
  end.

End Generator.

(** ** Vocabulary of the statements *)

Section Vocabulary.

Context {World : Type}.
Variable client : @Client World.
Variable model : string.

Abbreviation State := (@State World).
Abbreviation ToolManager := (@ToolManager World).

(** One result for one tool-use block: the block's id, and as content
    either what the tool returned or the error text of what it raised. *)
Definition result_for (tm : ToolManager) (block : Block.t)
    (r : ToolResult.t) : Prop :=
  ToolResult.type r = "tool_result"
  /\ ToolResult.tool_use_id r = Block.id block
  /\ exists w w1,
       (exists out,
          tm (Block.name block) (Block.input block) w = (Ok out, w1)
          /\ ToolResult.content r = out)
       \/ (exists e,
             tm (Block.name block) (Block.input block) w = (Raise e, w1)
             /\ ToolResult.content r
                = "Tool execution error: " +:+ exn_str e).

Definition assistant_turn (response : Response.t) : Message.t :=
  Message.mk "assistant" (Message.Blocks (Response.content response)).

Definition results_turn (results : list ToolResult.t) : Message.t :=
  Message.mk "user" (Message.Results results).

Definition push (l : loc) (m : Message.t) (h : list (list Message.t))
  : list (list Message.t) :=
  alter (fun ms => ms ++ [m]) l h.

(** The part of one iteration that comes before the model call: append
    the assistant turn, execute the tools, and either [break] ([None]) or
    append the results and build [next_params]. *)
Definition prepare_round (base_params : Params.t) (tm : ToolManager)
    (messages : loc) (current_response : Response.t)
  : M (option Params.t) :=
  bind (list_append messages (assistant_turn current_response)) (fun _ =>
  bind (_execute_tools current_response tm) (fun tool_results =>
  match tool_results with
  | [] => ret None
  | _ :: _ =>
      bind (list_append messages (results_turn tool_results)) (fun _ =>
      bind (getitem "system" (Params.system base_params)) (fun system =>
      ret (Some (Params.with_system system
                   (Params.with_messages messages base_params)))))
  end)).

Definition round_error (round_count : Z) (e : PyExn) : string :=
  "Error in tool execution round " +:+ str_of_int round_count +:+ ": "
  +:+ exn_str e.

Section Rounds.

Variable base_params : Params.t.
Variable tool_manager : ToolManager.
Variable max_rounds : Z.
Variable messages : loc.
Variable initial_response : Response.t.
Variable start : State.

(** The states in which the loop guard is evaluated: on entry, and
    after every iteration that ran to its end (tools executed, model
    call answered).  [loop_head rc cur st] says that the guard is
    reached with [round_count = rc] and [current_response = cur] in
    state [st]. *)
Inductive loop_head : Z -> Response.t -> State -> Prop :=
| head_entry :
    loop_head 0 initial_response start
| head_next rc cur st np st1 next st2 :
    loop_head rc cur st ->
    loop_guard max_rounds rc cur = true ->
    prepare_round base_params tool_manager messages cur st
    = (Ok (Some np), st1) ->
    create client np st1 = (Ok next, st2) ->
    loop_head (rc + 1) next st2.

Definition loop_from (rc : Z) (cur : Response.t) : M LoopExit :=
  while_rounds client (Z.to_nat (max_rounds - rc)) base_params
    tool_manager max_rounds messages rc cur.

End Rounds.

(** The state in which the loop starts: the copy of the caller's message
    list is the newest list of the store. *)
Definition loop_start (st : State) (original : loc) : State :=
  mkState (heap st ++ [deref (heap st) original]) (world st) (trace st).

Definition tool_calls_of (response : Response.t) : list Event :=
  map (fun b => ToolCall (Block.name b) (Block.input b)) (tool_uses response).

(** [p] is [base_params] with only the ["messages"] entry replaced, by a
    reference to the list at [messages]. *)
Definition resubmitted (base_params : Params.t) (messages : loc)
    (p : Params.t) : Prop :=
  Params.model p = Params.model base_params
  /\ Params.temperature p = Params.temperature base_params
  /\ Params.max_tokens p = Params.max_tokens base_params
  /\ Params.system p = Params.system base_params
  /\ Params.tools p = Params.tools base_params
  /\ Params.tool_choice p = Params.tool_choice base_params
  /\ Params.messages p = Some messages.

(** A model call made from the loop: the request is [base_params] but
    for its messages, which are the conversation [before] followed by
    the turns accumulated since. *)
Definition loop_call (base_params : Params.t) (messages : loc)
    (before : list Message.t) (ev : Event) : Prop :=
  match ev with
  | ModelCall p ms =>
      resubmitted base_params messages p
      /\ exists turns, ms = before ++ turns /\ turns <> []
  | _ => True
  end.

Definition legacy_turns (response : Response.t)
    (results : list ToolResult.t) : list Message.t :=
  assistant_turn response
    :: match results with
       | [] => []
       | _ :: _ => [results_turn results]
       end.

Definition final_params (messages : loc) (sys : string) : Params.t :=
  Params.with_system sys
    (Params.with_messages messages (self_base_params model)).

Definition user_turn (query : string) : Message.t :=
  Message.mk "user" (Message.Text query).

Definition fallback_line (e : PyExn) : string :=
  "Sequential tool execution failed, falling back: " +:+ exn_str e.

(** The number of model calls among some events. *)
Definition model_calls (evs : list Event) : nat :=
  length (List.filter is_model_call evs).

(** Turns that come in request and answer pairs: an assistant turn with
    the blocks of a response, then a user turn with one result per
    tool-use block of that response, in order and under the blocks' ids,
    and at least one. *)
Inductive paired : list Message.t -> Prop :=
| paired_none : paired []
| paired_round response results rest :
    results <> [] ->
    map ToolResult.tool_use_id results = map Block.id (tool_uses response) ->
    paired rest ->
    paired (assistant_turn response :: results_turn results :: rest).

(** A model call whose messages are [before] followed by at least one
    turn, the turns coming in pairs. *)
Definition paired_call (before : list Message.t) (ev : Event) : Prop :=
  match ev with
  | ModelCall _ ms =>
      exists turns, ms = before ++ turns /\ paired turns /\ turns <> []
  | _ => True
  end.

End Vocabulary.

(** ** Concrete runs *)

(** A world that counts the model calls made so far. *)

Definition search_block : Block.t :=
  Block.mk "ToolUseBlock" "tool_use" None "tool_1" "search_course_content"
    [("query", "test")].

Definition note_block : Block.t :=
  Block.mk "TextBlock" "text" (Some "Let me look that up.") EmptyString
    EmptyString [].

Definition answer_block : Block.t :=
  Block.mk "TextBlock" "text" (Some "Fallback response") EmptyString
    EmptyString [].

(** A tool-use request that starts with a line of text. *)
Definition chatty_request : Response.t :=
  Response.mk [note_block; search_block] "tool_use".

(** A tool-use request made of the tool-use block alone. *)
Definition bare_request : Response.t :=
  Response.mk [search_block] "tool_use".

(** A response that claims tool use and requests none. *)
Definition empty_request : Response.t :=
  Response.mk [] "tool_use".

Definition final_answer : Response.t :=
  Response.mk [answer_block] "end_turn".

Definition search_tools : list Tool.t :=
  [Tool.mk "search_course_content" "Search course content" "object"].

Definition demo_params : Params.t :=
  Params.mk (Some "test-model") None None (Some 0%nat) (Some "system")
    (Some search_tools) (Some (ToolChoice.mk "auto")).

Definition demo_state : @State nat :=
  mkState [[Message.mk "user" (Message.Text "test")]] 0%nat [].

Definition blank_state : @State nat := mkState [] 0%nat [].

Definition mock_tools : @ToolManager nat :=
  fun _ _ w => (Ok "Mock search results", w).

(** Always asks for another search. *)
Definition chatty_client : @Client nat :=
  fun _ _ w => (Ok chatty_request, S w).

(** Always claims tool use, never names a tool. *)
Definition stuck_client : @Client nat :=
  fun _ _ w => (Ok empty_request, S w).

(** Answers the first call and fails from the second on. *)
Definition flaky_client : @Client nat :=
  fun _ _ w =>
    match w with
    | O => (Ok chatty_request, S w)
    | S _ => (Raise (mkExn "Exception" "API call failed"), S w)
    end.

(** Answers the first call with a request that names no tool. *)
Definition idle_client : @Client nat :=
  fun _ _ w =>
    (Ok (Response.mk [note_block] "tool_use"), S w).

(** Asks for a search as long as tools are offered, answers otherwise. *)
Definition obliging_client : @Client nat :=
  fun p _ w =>
    match Params.tools p with
    | Some _ => (Ok bare_request, S w)
    | None => (Ok final_answer, S w)
    end.

(** Answers at once. *)
Definition direct_client : @Client nat :=
  fun _ _ w => (Ok final_answer, S w).

(** Answers the tool results with an empty response. *)
Definition silent_client : @Client nat :=
  fun _ _ w => (Ok (Response.mk [] "end_turn"), S w).

Definition outline_block : Block.t :=
  Block.mk "ToolUseBlock" "tool_use" None "tool_0" "get_course_outline"
    [("course_name", "Python Course")].

(** An outline request, a line of text and a search request. *)
Definition mixed_request : Response.t :=
  Response.mk [outline_block; note_block; search_block] "tool_use".

(** Fails on the outline tool, answers every other tool. *)
Definition picky_tools : @ToolManager nat :=
  fun name _ w =>
    if String.eqb name "get_course_outline"
    then (Raise (mkExn "Exception" "Tool failed"), w)
    else (Ok "Mock search results", w).

(** Never answers. *)
Definition dead_client : @Client nat :=
  fun _ _ w => (Raise (mkExn "Exception" "API call failed"), S w).

(** Fails on every tool. *)
Definition broken_tools : @ToolManager nat :=
  fun _ _ w => (Raise (mkExn "Exception" "Tool failed"), w).

(** Asks for a search first and answers once it has the results. *)
Definition helpful_client : @Client nat :=
  fun _ _ w =>
    match w with
    | O => (Ok chatty_request, S w)
    | S _ => (Ok final_answer, S w)
    end.

(** [demo_params] without the ["messages"] key. *)
Definition no_messages_params : Params.t :=
  Params.mk (Some "test-model") None None None (Some "system")
    (Some search_tools) (Some (ToolChoice.mk "auto")).

(** [demo_params] without the ["system"] key. *)
Definition no_system_params : Params.t :=
  Params.mk (Some "test-model") None None (Some 0%nat) None
    (Some search_tools) (Some (ToolChoice.mk "auto")).

(** Asks for a search whatever it is sent, with the tool-use block alone. *)
Definition insistent_client : @Client nat :=
  fun _ _ w => (Ok bare_request, S w).

(** Asks for a search as long as tools are offered, and rejects a request
    that offers none. *)
Definition fickle_client : @Client nat :=
  fun p _ w =>
    match Params.tools p with
    | Some _ => (Ok bare_request, S w)
    | None => (Raise (mkExn "BadRequestError" "tools must be defined"), S w)
    end.

(** Asks for a search as long as tools are offered, and answers a request
    that offers none with no content. *)
Definition hollow_client : @Client nat :=
  fun p _ w =>
    match Params.tools p with
    | Some _ => (Ok bare_request, S w)
    | None => (Ok (Response.mk [] "end_turn"), S w)
    end.

(** ** Properties *)

Section Properties.

Context {World : Type}.
Variable client : @Client World.
Variable model : string.

Abbreviation State := (@State World).
Abbreviation ToolManager := (@ToolManager World).

(** *** [_execute_tools] *)

Lemma execute_blocks_run (tm : ToolManager) blocks acc (st : State) :
  exists results evs w',
    execute_blocks tm blocks acc st
    = (Ok (acc ++ results), mkState (heap st) w' (trace st ++ evs))
    /\ tool_run tm (world st) blocks results evs w'.
Proof.
  revert acc st.
  induction blocks as [|b rest IH]; intros acc st.
  - exists [], [], (world st). simpl. rewrite !app_nil_r.
    destruct st; split; [reflexivity | constructor].
  - simpl. destruct (String.eqb (Block.type b) "tool_use") eqn:Hty.
    + apply String.eqb_eq in Hty.
      unfold bind, try_except, execute_tool, ret.
      destruct (tm (Block.name b) (Block.input b) (world st))
        as [[out|e] w1] eqn:Hcall.
      * destruct (IH (acc ++ [tool_result b out])
                    (mkState (heap st) w1
                       (trace st ++ [ToolCall (Block.name b) (Block.input b)])))
          as (rs & evs & w' & Heq & Hrun).
        simpl in Heq, Hrun. rewrite Heq.
        eexists _, _, w'. split.
        -- rewrite <- !app_assoc. simpl. reflexivity.
        -- eapply run_ok; eauto.
      * destruct (IH (acc ++ [tool_result b
                                ("Tool execution error: " +:+ exn_str e)])
                    (mkState (heap st) w1
                       (trace st ++ [ToolCall (Block.name b) (Block.input b)])))
          as (rs & evs & w' & Heq & Hrun).
        simpl in Heq, Hrun. rewrite Heq.
        eexists _, _, w'. split.
        -- rewrite <- !app_assoc. simpl. reflexivity.
        -- eapply run_error; eauto.
    + apply String.eqb_neq in Hty.
      destruct (IH acc st) as (rs & evs & w' & Heq & Hrun).
      rewrite Heq. exists rs, evs, w'. split; [reflexivity|].
      apply run_skip; assumption.
Qed.

Lemma filter_tool_use_cons block rest :
  Block.type block = "tool_use" ->
  List.filter is_tool_use (block :: rest)
  = block :: List.filter is_tool_use rest.
Proof.
  intros Hty. simpl. unfold is_tool_use at 1.
  apply String.eqb_eq in Hty. rewrite Hty. reflexivity.
Qed.

Lemma filter_tool_use_skip block rest :
  Block.type block <> "tool_use" ->
  List.filter is_tool_use (block :: rest) = List.filter is_tool_use rest.
Proof.
  intros Hty. simpl. unfold is_tool_use at 1.
  apply String.eqb_neq in Hty. rewrite Hty. reflexivity.
Qed.

Lemma tool_run_ids (tm : ToolManager) w blocks results evs w' :
  tool_run tm w blocks results evs w' ->
  map ToolResult.tool_use_id results
  = map Block.id (List.filter is_tool_use blocks).
Proof.
  induction 1.
  - reflexivity.
  - rewrite filter_tool_use_skip by assumption. assumption.
  - rewrite filter_tool_use_cons by assumption. simpl. f_equal. assumption.
  - rewrite filter_tool_use_cons by assumption. simpl. f_equal. assumption.
Qed.

Lemma tool_run_calls (tm : ToolManager) w blocks results evs w' :
  tool_run tm w blocks results evs w' ->
  evs = map (fun b => ToolCall (Block.name b) (Block.input b))
            (List.filter is_tool_use blocks).
Proof.
  induction 1.
  - reflexivity.
  - rewrite filter_tool_use_skip by assumption. assumption.
  - rewrite filter_tool_use_cons by assumption. simpl. f_equal. assumption.
  - rewrite filter_tool_use_cons by assumption. simpl. f_equal. assumption.
Qed.

Lemma execute_tools_run (tm : ToolManager) response (st : State) :
  exists results evs w',
    _execute_tools response tm st
    = (Ok results, mkState (heap st) w' (trace st ++ evs))
    /\ tool_run tm (world st) (Response.content response) results evs w'.
Proof.
  unfold _execute_tools.
  destruct (execute_blocks_run tm (Response.content response) [] st)
    as (rs & evs & w' & Heq & Hrun).
  exists rs, evs, w'. split; assumption.
Qed.

Lemma tool_run_results (tm : ToolManager) w blocks results evs w' :
  tool_run tm w blocks results evs w' ->
  Forall2 (result_for tm) (List.filter is_tool_use blocks) results.
Proof.
  induction 1.
  - constructor.
  - rewrite filter_tool_use_skip by assumption. assumption.
  - rewrite filter_tool_use_cons by assumption. constructor; [|assumption].
    repeat split. exists w, w1. left. eauto.
  - rewrite filter_tool_use_cons by assumption. constructor; [|assumption].
    repeat split. exists w, w1. right. eauto.
Qed.

(** C2.  Whatever the response and the tool manager, [_execute_tools]
    returns normally with exactly one tool result per tool-use block of
    the response, in the order of the blocks, each carrying its block's
    id.  A block whose execution raises gets the content
    ["Tool execution error: <message>"]; the blocks after it are still
    executed, in the world the failed call left, and get their own
    results.  The store is untouched and the trace grows by exactly the
    tool calls. *)
Theorem execute_tools_one_result_per_call
    (tm : ToolManager) (response : Response.t) (st : State) :
  exists results evs w',
    _execute_tools response tm st
    = (Ok results, mkState (heap st) w' (trace st ++ evs))
    /\ tool_run tm (world st) (Response.content response) results evs w'
    /\ Forall2 (result_for tm) (tool_uses response) results
    /\ length results = length (tool_uses response)
    /\ map ToolResult.tool_use_id results
       = map Block.id (tool_uses response)
    /\ evs = map (fun b => ToolCall (Block.name b) (Block.input b))
                 (tool_uses response).
Proof.
  destruct (execute_tools_run tm response st)
    as (results & evs & w' & Heq & Hrun).
  exists results, evs, w'.
  pose proof (tool_run_results _ _ _ _ _ _ Hrun) as HF.
  repeat split; try assumption.
  - symmetry. eapply Forall2_length; exact HF.
  - eapply tool_run_ids; exact Hrun.
  - eapply tool_run_calls; exact Hrun.
Qed.

(** *** The rounds of the sequential loop *)

(** One iteration of [while_rounds], in terms of [prepare_round] and the
    model call. *)
Lemma while_rounds_step fuel bp (tm : ToolManager) max_rounds messages
    rc cur (st : State) :
  while_rounds client (S fuel) bp tm max_rounds messages rc cur st
  = if loop_guard max_rounds rc cur then
      match prepare_round bp tm messages cur st with
      | (Ok None, st1) => (Ok (Fell cur (rc + 1)), st1)
      | (Ok (Some np), st1) =>
          match create client np st1 with
          | (Ok next, st2) =>
              while_rounds client fuel bp tm max_rounds messages
                (rc + 1) next st2
          | (Raise e, st2) => (Ok (Returned (round_error (rc + 1) e)), st2)
          end
      | (Raise e, st1) => (Raise e, st1)
      end
    else (Ok (Fell cur rc), st).
Proof.
  simpl. destruct (loop_guard max_rounds rc cur); [|reflexivity].
  unfold prepare_round, bind, list_append, assistant_turn, results_turn.
  destruct (_execute_tools cur tm _) as [[[|r rs]|e] st1]; try reflexivity.
  unfold getitem.
  destruct (Params.system bp) as [sys|]; [|reflexivity].
  unfold ret, try_except, bind, round_error.
  destruct (create client _ _) as [[next|e] st2]; reflexivity.
Qed.

(** What [prepare_round] does to the state, by cases on the tool results
    and on the presence of the ["system"] key. *)
Lemma prepare_round_run bp (tm : ToolManager) messages cur (st : State) :
  exists results evs w',
    tool_run tm (world st) (Response.content cur) results evs w'
    /\ prepare_round bp tm messages cur st
       = match results with
         | [] =>
             (Ok None,
              mkState (push messages (assistant_turn cur) (heap st))
                w' (trace st ++ evs))
         | _ :: _ =>
             let h := push messages (results_turn results)
                        (push messages (assistant_turn cur) (heap st)) in
             match Params.system bp with
             | Some sys =>
                 (Ok (Some (Params.with_system sys
                              (Params.with_messages messages bp))),
                  mkState h w' (trace st ++ evs))
             | None =>
                 (Raise (KeyError "system"),
                  mkState h w' (trace st ++ evs))
             end
         end.
Proof.
  unfold prepare_round, bind at 1, list_append at 1.
  set (st1 := mkState _ (world st) (trace st)).
  destruct (execute_tools_run tm cur st1) as (rs & evs & w' & Heq & Hrun).
  exists rs, evs, w'. split; [exact Hrun|].
  unfold bind at 1. rewrite Heq.
  destruct rs as [|r rs]; [reflexivity|].
  unfold bind, list_append, getitem. simpl.
  destruct (Params.system bp); reflexivity.
Qed.

(** The guard stops the loop before the fuel does: any amount of fuel
    that covers the rounds still allowed gives the same run. *)
Lemma while_rounds_fuel fuel bp (tm : ToolManager) max_rounds messages :
  forall rc cur (st : State),
    (Z.to_nat (max_rounds - rc) <= fuel)%nat ->
    while_rounds client fuel bp tm max_rounds messages rc cur st
    = while_rounds client (Z.to_nat (max_rounds - rc)) bp tm max_rounds
        messages rc cur st.
Proof.
  induction fuel as [|fuel IH]; intros rc cur st Hle.
  - replace (Z.to_nat (max_rounds - rc)) with O by lia. reflexivity.
  - destruct (Z.to_nat (max_rounds - rc)) as [|n] eqn:Hn.
    + simpl. unfold loop_guard.
      replace (rc <? max_rounds)%Z with false
        by (symmetry; apply Z.ltb_ge; lia).
      reflexivity.
    + rewrite !while_rounds_step.
      destruct (loop_guard max_rounds rc cur); [|reflexivity].
      destruct (prepare_round bp tm messages cur st)
        as [[[np|]|e] st1]; try reflexivity.
      destruct (create client np st1) as [[next|e] st2]; [|reflexivity].
      rewrite IH by lia.
      replace n with (Z.to_nat (max_rounds - (rc + 1))) by lia.
      reflexivity.
Qed.

Section Rounds.

Variable base_params : Params.t.
Variable tool_manager : ToolManager.
Variable max_rounds : Z.
Variable messages : loc.
Variable initial_response : Response.t.
Variable start : State.

Abbreviation head :=
  (loop_head client base_params tool_manager max_rounds messages
     initial_response start).
Abbreviation rest_from :=
  (loop_from client base_params tool_manager max_rounds messages).

Lemma loop_guard_lt rc cur :
  loop_guard max_rounds rc cur = true -> (rc < max_rounds)%Z.
Proof.
  unfold loop_guard. intros H. apply andb_prop in H as [H _].
  apply Z.ltb_lt in H. exact H.
Qed.

Lemma loop_from_step rc cur (st : State) :
  loop_guard max_rounds rc cur = true ->
  rest_from rc cur st
  = match prepare_round base_params tool_manager messages cur st with
    | (Ok None, st1) => (Ok (Fell cur (rc + 1)), st1)
    | (Ok (Some np), st1) =>
        match create client np st1 with
        | (Ok next, st2) => rest_from (rc + 1) next st2
        | (Raise e, st2) => (Ok (Returned (round_error (rc + 1) e)), st2)
        end
    | (Raise e, st1) => (Raise e, st1)
    end.
Proof.
  intros Hg. pose proof (loop_guard_lt _ _ Hg) as Hlt.
  unfold loop_from.
  replace (Z.to_nat (max_rounds - rc))
    with (S (Z.to_nat (max_rounds - (rc + 1)))) by lia.
  rewrite while_rounds_step, Hg. reflexivity.
Qed.

(** The rest of the run from any loop head is the run of the whole
    loop. *)
Lemma loop_head_run rc cur st :
  head rc cur st ->
  rest_from rc cur st = rest_from 0 initial_response start.
Proof.
  induction 1 as [|rc cur st np st1 next st2 _ IH Hg Hprep Hcall].
  - reflexivity.
  - rewrite <- IH, (loop_from_step _ _ _ Hg), Hprep, Hcall. reflexivity.
Qed.

Lemma loop_head_count rc cur st :
  head rc cur st -> (0 <= rc <= Z.max 0 max_rounds)%Z.
Proof.
  induction 1 as [|rc cur st np st1 next st2 _ IH Hg _ _].
  - lia.
  - apply loop_guard_lt in Hg. lia.
Qed.

End Rounds.

Lemma sequential_run initial bp (tm : ToolManager) max_rounds
    (st : State) original :
  Params.messages bp = Some original ->
  _handle_sequential_tool_execution client initial bp tm max_rounds st
  = match loop_from client bp tm max_rounds (length (heap st)) 0 initial
            (loop_start st original) with
    | (Ok exit, st') => finish exit st'
    | (Raise e, st') => (Raise e, st')
    end.
Proof.
  intros Hm. unfold _handle_sequential_tool_execution, loop_from.
  rewrite Hm. rewrite Z.sub_0_r. reflexivity.
Qed.

(** C4.  Let the loop reach its guard with [round_count = rc], let the
    guard hold, and let round [rc + 1] get as far as its model call,
    which raises [e].  Then the handler returns (it does not raise) the
    text ["Error in tool execution round <rc+1>: <str e>"], and it stops
    in the very state the failed call left: the trace ends with that
    call, so no model call and no tool call follows it. *)
Theorem model_fault_in_round initial bp (tm : ToolManager) max_rounds
    (st : State) original rc cur stk np st1 e st2 :
  Params.messages bp = Some original ->
  loop_head client bp tm max_rounds (length (heap st)) initial
    (loop_start st original) rc cur stk ->
  loop_guard max_rounds rc cur = true ->
  prepare_round bp tm (length (heap st)) cur stk = (Ok (Some np), st1) ->
  create client np st1 = (Raise e, st2) ->
  _handle_sequential_tool_execution client initial bp tm max_rounds st
  = (Ok ("Error in tool execution round " +:+ str_of_int (rc + 1)
         +:+ ": " +:+ exn_str e), st2)
  /\ trace st2 = trace st1 ++ [ModelCall np (messages_of np (heap st1))]
  /\ heap st2 = heap st1.
Proof.
  intros Hm Hhead Hg Hprep Hcall.
  split.
  - rewrite (sequential_run _ _ _ _ _ _ Hm).
    rewrite <- (loop_head_run _ _ _ _ _ _ _ _ _ Hhead).
    rewrite (loop_from_step _ _ _ _ _ _ _ Hg), Hprep, Hcall.
    reflexivity.
  - unfold create in Hcall.
    destruct (client np _ _) as [r w]. inversion Hcall; subst.
    split; reflexivity.
Qed.

Lemma tool_run_nothing (tm : ToolManager) w blocks results evs w' :
  tool_run tm w blocks results evs w' ->
  List.filter is_tool_use blocks = [] ->
  results = [] /\ evs = [] /\ w' = w.
Proof.
  induction 1; intros Hnone.
  - auto.
  - rewrite filter_tool_use_skip in Hnone by assumption. auto.
  - rewrite filter_tool_use_cons in Hnone by assumption. discriminate.
  - rewrite filter_tool_use_cons in Hnone by assumption. discriminate.
Qed.

Lemma final_text_state cur (st : State) : snd (final_text cur st) = st.
Proof.
  unfold final_text, first_text.
  destruct (Response.content cur) as [|b bs]; [reflexivity|].
  destruct (Block.text b); reflexivity.
Qed.

(** C7.  Let the loop reach its guard with [current_response = cur], let
    the guard hold, and let [cur] contain no tool-use block.  Then the
    iteration appends the assistant turn and breaks: nothing is added to
    the trace (no tool call, no model call), and the handler's answer is
    the final text of [cur], the most recent response: its first block's
    text, or the sentinel when it has no content. *)
Theorem empty_round_breaks initial bp (tm : ToolManager) max_rounds
    (st : State) original rc cur stk :
  Params.messages bp = Some original ->
  loop_head client bp tm max_rounds (length (heap st)) initial
    (loop_start st original) rc cur stk ->
  loop_guard max_rounds rc cur = true ->
  tool_uses cur = [] ->
  let st' :=
    mkState (push (length (heap st)) (assistant_turn cur) (heap stk))
      (world stk) (trace stk) in
  _handle_sequential_tool_execution client initial bp tm max_rounds st
  = final_text cur st'
  /\ snd (final_text cur st') = st'
  /\ (forall block rest t,
        Response.content cur = block :: rest ->
        Block.text block = Some t ->
        _handle_sequential_tool_execution client initial bp tm max_rounds st
        = (Ok t, st'))
  /\ (Response.content cur = [] ->
      _handle_sequential_tool_execution client initial bp tm max_rounds st
      = (Ok "No response generated", st')).
Proof.
  intros Hm Hhead Hg Hnone st'.
  assert (Hrun :
    _handle_sequential_tool_execution client initial bp tm max_rounds st
    = final_text cur st').
  { rewrite (sequential_run _ _ _ _ _ _ Hm).
    rewrite <- (loop_head_run _ _ _ _ _ _ _ _ _ Hhead).
    rewrite (loop_from_step _ _ _ _ _ _ _ Hg).
    destruct (prepare_round_run bp tm (length (heap st)) cur stk)
      as (rs & evs & w' & Htools & Hprep).
    destruct (tool_run_nothing _ _ _ _ _ _ Htools Hnone)
      as (-> & -> & ->).
    rewrite Hprep, app_nil_r. reflexivity. }
  split; [exact Hrun|]. split; [apply final_text_state|]. split.
  - intros block rest t Hc Ht. rewrite Hrun.
    unfold final_text, first_text. rewrite Hc, Ht. reflexivity.
  - intros Hc. rewrite Hrun. unfold final_text. rewrite Hc. reflexivity.
Qed.

(** The return after the loop.  When the loop is left by falling out
    of it with [current_response = cur] (the terminal response), the
    handler returns the sentinel ["No response generated"] if [cur] has
    no content, and the text of the first content block if that block
    has text. *)
Theorem terminal_response_text initial bp (tm : ToolManager) max_rounds
    (st : State) original cur rc st' :
  Params.messages bp = Some original ->
  while_rounds client (Z.to_nat max_rounds) bp tm max_rounds
    (length (heap st)) 0 initial (loop_start st original)
  = (Ok (Fell cur rc), st') ->
  (Response.content cur = [] ->
   _handle_sequential_tool_execution client initial bp tm max_rounds st
   = (Ok "No response generated", st'))
  /\ (forall block rest t,
        Response.content cur = block :: rest ->
        Block.text block = Some t ->
        _handle_sequential_tool_execution client initial bp tm max_rounds st
        = (Ok t, st')).
Proof.
  intros Hm Hloop.
  assert (Hrun :
    _handle_sequential_tool_execution client initial bp tm max_rounds st
    = final_text cur st').
  { rewrite (sequential_run _ _ _ _ _ _ Hm). unfold loop_from.
    rewrite Z.sub_0_r, Hloop. reflexivity. }
  split.
  - intros Hc. rewrite Hrun. unfold final_text. rewrite Hc. reflexivity.
  - intros block rest t Hc Ht. rewrite Hrun.
    unfold final_text, first_text. rewrite Hc, Ht. reflexivity.
Qed.

(** *** The round bound *)

Lemma tool_calls_not_model response :
  List.filter is_model_call (tool_calls_of response) = [].
Proof.
  unfold tool_calls_of. induction (tool_uses response); simpl; auto.
Qed.

(** A round that runs to its end: the guard holds, the response has a
    tool-use block, ["system"] is present and the client answers. *)
Lemma full_round fuel bp (tm : ToolManager) max_rounds messages rc cur
    (st : State) sys :
  Params.system bp = Some sys ->
  (forall p ms w, exists r w', client p ms w = (Ok r, w')) ->
  loop_guard max_rounds rc cur = true ->
  tool_uses cur <> [] ->
  let np := Params.with_system sys (Params.with_messages messages bp) in
  exists ms next st2 w w',
    while_rounds client (S fuel) bp tm max_rounds messages rc cur st
    = while_rounds client fuel bp tm max_rounds messages (rc + 1) next st2
    /\ client np ms w = (Ok next, w')
    /\ trace st2 = trace st ++ tool_calls_of cur ++ [ModelCall np ms].
Proof.
  intros Hsys Hclient Hg Huses np.
  rewrite while_rounds_step, Hg.
  destruct (prepare_round_run bp tm messages cur st)
    as (rs & evs & w1 & Htools & Hprep).
  pose proof (tool_run_results _ _ _ _ _ _ Htools) as HF.
  pose proof (tool_run_calls _ _ _ _ _ _ Htools) as Hevs.
  destruct rs as [|r rs].
  { apply Forall2_length in HF. fold (tool_uses cur) in HF.
    destruct (tool_uses cur); [congruence | discriminate HF]. }
  rewrite Hprep, Hsys. cbv zeta. unfold create. simpl.
  fold np.
  destruct (Hclient np
              (messages_of np
                 (push messages (results_turn (r :: rs))
                    (push messages (assistant_turn cur) (heap st)))) w1)
    as (next & w2 & Hcall).
  rewrite Hcall.
  eexists _, next, _, w1, w2. split; [reflexivity|]. split; [exact Hcall|].
  simpl. rewrite <- app_assoc, Hevs. reflexivity.
Qed.

(** C1, as the code has it.  Let every response, the initial one
    included, have stop reason ["tool_use"] and contain at least one
    tool-use block, and let the client always answer.  With
    [max_rounds = 2] the handler runs two rounds and no third: the loop
    is left with [round_count = 2]; the trace grows by the tool calls of
    the initial response, one model call, the tool calls of its answer
    [r1], and a second model call, answered by [r2]; and when the first
    block of [r2] has text, the handler returns that text. *)
Theorem two_rounds_then_stop initial bp (tm : ToolManager) (st : State)
    original sys :
  Params.messages bp = Some original ->
  Params.system bp = Some sys ->
  (forall p ms w, exists r w',
      client p ms w = (Ok r, w')
      /\ Response.stop_reason r = "tool_use" /\ tool_uses r <> []) ->
  Response.stop_reason initial = "tool_use" ->
  tool_uses initial <> [] ->
  let np :=
    Params.with_system sys (Params.with_messages (length (heap st)) bp) in
  exists r1 r2 ms1 ms2 st',
    while_rounds client 2 bp tm 2 (length (heap st)) 0 initial
      (loop_start st original) = (Ok (Fell r2 2), st')
    /\ _handle_sequential_tool_execution client initial bp tm 2 st
       = first_text r2 st'
    /\ (forall block rest t,
          Response.content r2 = block :: rest ->
          Block.text block = Some t ->
          _handle_sequential_tool_execution client initial bp tm 2 st
          = (Ok t, st'))
    /\ trace st'
       = trace st ++ tool_calls_of initial ++ [ModelCall np ms1]
           ++ tool_calls_of r1 ++ [ModelCall np ms2]
    /\ length (List.filter is_model_call
                 (tool_calls_of initial ++ [ModelCall np ms1]
                    ++ tool_calls_of r1 ++ [ModelCall np ms2])) = 2%nat
    /\ tool_calls_of initial <> [] /\ tool_calls_of r1 <> []
    /\ (exists w w', client np ms1 w = (Ok r1, w'))
    /\ (exists w w', client np ms2 w = (Ok r2, w')).
Proof.
  intros Hm Hsys Hclient Hstop Huses np.
  assert (Hanswers : forall p ms w, exists r w', client p ms w = (Ok r, w')).
  { intros p ms w. destruct (Hclient p ms w) as (r & w' & H & _).
    eauto. }
  assert (Hguard : forall rc r,
             (rc < 2)%Z -> Response.stop_reason r = "tool_use" ->
             loop_guard 2 rc r = true).
  { intros rc r Hlt Hs. unfold loop_guard. rewrite Hs.
    apply Z.ltb_lt in Hlt. rewrite Hlt. reflexivity. }
  destruct (full_round 1 bp tm 2 (length (heap st)) 0 initial
              (loop_start st original) sys Hsys Hanswers
              (Hguard 0%Z initial ltac:(lia) Hstop) Huses)
    as (ms1 & r1 & st1 & w1 & w1' & Hstep1 & Hcall1 & Htr1).
  destruct (Hclient np ms1 w1) as (r1' & w1'' & Hcall1' & Hstop1 & Huses1).
  assert (Heq1 : (Ok r1, w1') = (Ok r1', w1''))
    by (rewrite <- Hcall1; exact Hcall1').
  inversion Heq1; subst r1' w1''; clear Heq1.
  destruct (full_round 0 bp tm 2 (length (heap st)) (0 + 1) r1 st1 sys
              Hsys Hanswers (Hguard (0 + 1)%Z r1 ltac:(lia) Hstop1) Huses1)
    as (ms2 & r2 & st2 & w2 & w2' & Hstep2 & Hcall2 & Htr2).
  destruct (Hclient np ms2 w2) as (r2' & w2'' & Hcall2' & Hstop2 & Huses2).
  assert (Heq2 : (Ok r2, w2') = (Ok r2', w2''))
    by (rewrite <- Hcall2; exact Hcall2').
  inversion Heq2; subst r2' w2''; clear Heq2.
  fold np in Hcall1, Hcall2, Htr1, Htr2.
  assert (Hloop :
    while_rounds client 2 bp tm 2 (length (heap st)) 0 initial
      (loop_start st original) = (Ok (Fell r2 2), st2)).
  { rewrite Hstep1, Hstep2. reflexivity. }
  assert (Hrun :
    _handle_sequential_tool_execution client initial bp tm 2 st
    = first_text r2 st2).
  { rewrite (sequential_run _ _ _ _ _ _ Hm). unfold loop_from.
    change (Z.to_nat (2 - 0)) with 2%nat. rewrite Hloop.
    unfold finish, final_text.
    destruct (Response.content r2) eqn:Hc; [|reflexivity].
    unfold tool_uses in Huses2. rewrite Hc in Huses2. contradiction. }
  assert (Hne : forall r, tool_uses r <> [] -> tool_calls_of r <> []).
  { intros r Hr Hnil. apply Hr. unfold tool_calls_of in Hnil.
    destruct (tool_uses r); [reflexivity | discriminate]. }
  exists r1, r2, ms1, ms2, st2.
  split; [exact Hloop|]. split; [exact Hrun|]. split.
  { intros block rest t Hc Ht. rewrite Hrun. unfold first_text.
    rewrite Hc, Ht. reflexivity. }
  split.
  { rewrite Htr2, Htr1. simpl. rewrite <- !app_assoc. reflexivity. }
  split.
  { rewrite !List.filter_app, !tool_calls_not_model. reflexivity. }
  split; [auto|]. split; [auto|]. split; eauto.
Qed.

(** *** What the handlers do to the store and to the requests *)

Lemma push_newest pre x m :
  push (length pre) m (pre ++ [x]) = pre ++ [x ++ [m]].
Proof.
  unfold push.
  replace (length pre) with (length pre + 0)%nat by lia.
  rewrite alter_app_r. reflexivity.
Qed.

Lemma deref_newest pre x : deref (pre ++ [x]) (length pre) = x.
Proof. unfold deref. rewrite list_lookup_middle; reflexivity. Qed.

Lemma loop_call_earlier bp messages before more ev :
  loop_call bp messages (before ++ more) ev -> loop_call bp messages before ev.
Proof.
  destruct ev as [p ms| |]; simpl; auto.
  intros (Hp & turns & -> & Hne). split; [exact Hp|].
  exists (more ++ turns). split; [rewrite app_assoc; reflexivity|].
  intros H. apply app_eq_nil in H as [_ H]. exact (Hne H).
Qed.

Lemma tool_calls_loop_call bp messages before blocks :
  Forall (loop_call bp messages before)
    (map (fun b => ToolCall (Block.name b) (Block.input b)) blocks).
Proof. induction blocks; simpl; constructor; simpl; auto. Qed.

Lemma resubmitted_next_params bp messages sys :
  Params.system bp = Some sys ->
  resubmitted bp messages
    (Params.with_system sys (Params.with_messages messages bp)).
Proof. intros Hsys. unfold resubmitted. simpl. rewrite Hsys. tauto. Qed.

(** The loop, started with its message list [x] as the newest list of
    the store: it leaves every older list alone, only appends to its own
    list, only appends to the trace, and every model call it makes is a
    [loop_call]. *)
Lemma while_rounds_frame bp (tm : ToolManager) max_rounds fuel :
  forall rc cur (st : State) pre x,
    heap st = pre ++ [x] ->
    exists x' evs,
      let st' := snd (while_rounds client fuel bp tm max_rounds
                        (length pre) rc cur st) in
      heap st' = pre ++ [x ++ x']
      /\ trace st' = trace st ++ evs
      /\ Forall (loop_call bp (length pre) x) evs.
Proof.
  induction fuel as [|fuel IH]; intros rc cur st pre x Hheap.
  - exists [], []. simpl. rewrite !app_nil_r. auto.
  - rewrite while_rounds_step.
    destruct (loop_guard max_rounds rc cur).
    2:{ exists [], []. simpl. rewrite !app_nil_r. auto. }
    destruct (prepare_round_run bp tm (length pre) cur st)
      as (rs & evs & w' & Htools & Hprep).
    pose proof (tool_run_calls _ _ _ _ _ _ Htools) as Hevs.
    rewrite Hprep, Hheap, push_newest. clear Hprep.
    destruct rs as [|r rs].
    { exists [assistant_turn cur], evs. simpl.
      split; [reflexivity|]. split; [reflexivity|].
      rewrite Hevs. apply tool_calls_loop_call. }
    cbv zeta. rewrite push_newest.
    set (x2 := (x ++ [assistant_turn cur]) ++ [results_turn (r :: rs)]).
    destruct (Params.system bp) as [sys|] eqn:Hsys.
    2:{ exists [assistant_turn cur; results_turn (r :: rs)], evs. simpl.
        split; [subst x2; rewrite <- app_assoc; reflexivity|].
        split; [reflexivity|].
        rewrite Hevs. apply tool_calls_loop_call. }
    set (np := Params.with_system sys (Params.with_messages (length pre) bp)).
    assert (Hcall : loop_call bp (length pre) x (ModelCall np x2)).
    { simpl. split; [apply resubmitted_next_params; exact Hsys|].
      exists [assistant_turn cur; results_turn (r :: rs)].
      split; [subst x2; rewrite <- app_assoc; reflexivity | discriminate]. }
    unfold create. simpl.
    replace (messages_of np (pre ++ [x2])) with x2
      by (unfold messages_of; simpl; rewrite deref_newest; reflexivity).
    destruct (client np x2 w') as [[next|e] w2].
    + destruct (IH (rc + 1)%Z next
                  (mkState (pre ++ [x2]) w2
                     ((trace st ++ evs) ++ [ModelCall np x2])) pre x2
                  eq_refl) as (x' & evs' & Hh & Ht & Hf).
      cbv zeta in Hh, Ht. simpl in Ht.
      exists ([assistant_turn cur; results_turn (r :: rs)] ++ x'),
             (evs ++ [ModelCall np x2] ++ evs').
      cbv zeta. rewrite Hh, Ht. split.
      { subst x2. rewrite <- !app_assoc. reflexivity. }
      split; [rewrite <- !app_assoc; reflexivity|].
      apply Forall_app. split.
      { rewrite Hevs. apply tool_calls_loop_call. }
      constructor; [exact Hcall|].
      eapply Forall_impl; [exact Hf|].
      intros ev Hev. subst x2. rewrite <- app_assoc in Hev.
      eapply loop_call_earlier. exact Hev.
    + exists [assistant_turn cur; results_turn (r :: rs)],
             (evs ++ [ModelCall np x2]). simpl.
      split; [subst x2; rewrite <- app_assoc; reflexivity|].
      split; [rewrite <- app_assoc; reflexivity|].
      apply Forall_app. split.
      { rewrite Hevs. apply tool_calls_loop_call. }
      constructor; [exact Hcall | constructor].
Qed.

Lemma first_text_state response (st : State) :
  snd (first_text response st) = st.
Proof.
  unfold first_text.
  destruct (Response.content response) as [|b bs]; [reflexivity|].
  destruct (Block.text b); reflexivity.
Qed.

Lemma finish_state exit (st : State) : snd (finish exit st) = st.
Proof. destruct exit; [reflexivity | apply final_text_state]. Qed.

Lemma sequential_frame initial bp (tm : ToolManager) max_rounds (st : State) :
  exists extra evs,
    let st' := snd (_handle_sequential_tool_execution client initial bp tm
                      max_rounds st) in
    heap st' = heap st ++ extra
    /\ trace st' = trace st ++ evs
    /\ Forall (loop_call bp (length (heap st)) (messages_of bp (heap st))) evs.
Proof.
  destruct (Params.messages bp) as [original|] eqn:Hm.
  - rewrite (sequential_run _ _ _ _ _ _ Hm). unfold loop_from.
    destruct (while_rounds_frame bp tm max_rounds
                (Z.to_nat (max_rounds - 0)) 0%Z initial
                (loop_start st original) (heap st)
                (deref (heap st) original) eq_refl)
      as (x' & evs & Hh & Ht & Hf).
    cbv zeta in Hh, Ht.
    destruct (while_rounds client _ bp tm max_rounds _ 0 initial _)
      as [[exit|e] st'].
    + exists [deref (heap st) original ++ x'], evs. cbv zeta.
      rewrite finish_state. simpl in Hh, Ht.
      unfold messages_of. rewrite Hm. auto.
    + exists [deref (heap st) original ++ x'], evs. simpl in *.
      unfold messages_of. rewrite Hm. auto.
  - exists [], []. unfold _handle_sequential_tool_execution.
    rewrite Hm. simpl. rewrite !app_nil_r. auto.
Qed.

(** C5.  Every model call the sequential handler makes carries the
    [base_params] it was given in the fields [model], [temperature],
    [max_tokens], [system], [tools] and [tool_choice]; only [messages]
    is replaced: it refers to the handler's own list (the newest of the
    store), whose contents at the call are the caller's messages
    followed by the turns accumulated so far, at least one. *)
Theorem resubmit_keeps_request initial bp (tm : ToolManager) max_rounds
    (st : State) :
  exists evs,
    trace (snd (_handle_sequential_tool_execution client initial bp tm
                  max_rounds st)) = trace st ++ evs
    /\ Forall
         (fun ev =>
            match ev with
            | ModelCall p ms =>
                (Params.model p = Params.model bp
                 /\ Params.temperature p = Params.temperature bp
                 /\ Params.max_tokens p = Params.max_tokens bp
                 /\ Params.system p = Params.system bp
                 /\ Params.tools p = Params.tools bp
                 /\ Params.tool_choice p = Params.tool_choice bp
                 /\ Params.messages p = Some (length (heap st)))
                /\ exists turns,
                     ms = messages_of bp (heap st) ++ turns /\ turns <> []
            | _ => True
            end) evs.
Proof.
  destruct (sequential_frame initial bp tm max_rounds st)
    as (extra & evs & _ & Ht & Hf).
  exists evs. split; [exact Ht|]. exact Hf.
Qed.

(** *** The legacy handler *)

Lemma legacy_run response bp (tm : ToolManager) (st : State) original :
  Params.messages bp = Some original ->
  exists results evs w',
    tool_run tm (world st) (Response.content response) results evs w'
    /\ let msgs := deref (heap st) original
                     ++ legacy_turns response results in
       let h := heap st ++ [msgs] in
       _handle_tool_execution client model response bp tm st
       = match Params.system bp with
         | None =>
             (Raise (KeyError "system"), mkState h w' (trace st ++ evs))
         | Some sys =>
             let fp := final_params model (length (heap st)) sys in
             let tr := trace st ++ evs ++ [ModelCall fp msgs] in
             match client fp msgs w' with
             | (Ok final, w'') => first_text final (mkState h w'' tr)
             | (Raise e, w'') => (Raise e, mkState h w'' tr)
             end
         end.
Proof.
  intros Hm. unfold _handle_tool_execution. rewrite Hm.
  unfold getitem at 1. unfold bind at 1, ret at 1.
  unfold bind at 1, list_copy, new_list. cbv beta.
  unfold bind at 1, list_append at 1. cbv beta. simpl heap. simpl world.
  simpl trace. fold (push (length (heap st))
                       (Message.mk "assistant"
                          (Message.Blocks (Response.content response)))
                       (heap st ++ [deref (heap st) original])).
  fold (assistant_turn response). rewrite push_newest.
  set (st1 := mkState _ (world st) (trace st)).
  destruct (execute_tools_run tm response st1)
    as (rs & evs & w' & Heq & Hrun).
  exists rs, evs, w'. split; [exact Hrun|]. cbv zeta.
  unfold bind at 1. rewrite Heq. subst st1. simpl heap. simpl trace.
  assert (Hpush :
    forall u, push (length (heap st)) u
                (heap st ++ [deref (heap st) original
                             ++ [assistant_turn response]])
              = heap st ++ [deref (heap st) original
                            ++ [assistant_turn response; u]]).
  { intros u. rewrite push_newest, <- app_assoc. reflexivity. }
  destruct rs as [|r rs].
  - unfold bind at 1, ret at 1. unfold legacy_turns.
    destruct (Params.system bp) as [sys|]; [|reflexivity].
    unfold getitem, bind at 1, ret at 1. cbv zeta.
    unfold bind, create, final_params. simpl.
    unfold messages_of. simpl. rewrite deref_newest.
    destruct (client _ _ w') as [[final|e] w'']; simpl;
      rewrite <- ?app_assoc; reflexivity.
  - unfold bind at 1, list_append at 1. cbn [heap world trace].
    change (alter (fun ms : list Message.t => ms ++ [?m]) ?l ?h)
      with (push l m h).
    rewrite Hpush. unfold legacy_turns.
    change (Message.mk "user" (Message.Results (r :: rs)))
      with (results_turn (r :: rs)).
    destruct (Params.system bp) as [sys|]; [|reflexivity].
    unfold getitem, bind at 1, ret at 1. cbv zeta.
    unfold bind, create, final_params. simpl.
    unfold messages_of. simpl. rewrite deref_newest.
    destruct (client _ _ w') as [[final|e] w'']; simpl;
      rewrite <- ?app_assoc; reflexivity.
Qed.

Lemma legacy_frame response bp (tm : ToolManager) (st : State) :
  exists extra evs,
    let st' := snd (_handle_tool_execution client model response bp tm st) in
    heap st' = heap st ++ extra /\ trace st' = trace st ++ evs.
Proof.
  destruct (Params.messages bp) as [original|] eqn:Hm.
  - destruct (legacy_run response bp tm st original Hm)
      as (rs & evs & w' & _ & Hrun).
    cbv zeta in Hrun. rewrite Hrun. cbv zeta.
    destruct (Params.system bp) as [sys|].
    + destruct (client _ _ w') as [[final|e] w''].
      * rewrite first_text_state. simpl. eauto.
      * simpl. eauto.
    + simpl. eauto.
  - exists [], []. unfold _handle_tool_execution. rewrite Hm. simpl.
    rewrite !app_nil_r. auto.
Qed.

(** *** [generate_response] *)

Lemma api_params_messages l hist tools :
  Params.messages (api_params_for model l hist tools) = Some l.
Proof. unfold api_params_for. destruct tools as [[|t ts]|]; reflexivity. Qed.

Lemma api_params_system l hist tools :
  Params.system (api_params_for model l hist tools)
  = Some (system_content hist).
Proof. unfold api_params_for. destruct tools as [[|t ts]|]; reflexivity. Qed.

(** The run of [generate_response], call by call. *)
Lemma generate_response_run query hist tools
    (tmo : option ToolManager) (st : State) :
  let api_params := api_params_for model (length (heap st)) hist tools in
  let turn := [user_turn query] in
  let tr := trace st ++ [ModelCall api_params turn] in
  generate_response client model query hist tools tmo st
  = match client api_params turn (world st) with
    | (Raise e, w) => (Raise e, mkState (heap st ++ [turn]) w tr)
    | (Ok response, w) =>
        let st1 := mkState (heap st ++ [turn]) w tr in
        match (if String.eqb (Response.stop_reason response) "tool_use"
               then tmo else None) with
        | Some tm =>
            match _handle_sequential_tool_execution client response
                    api_params tm 2 st1 with
            | (Ok text, st2) => (Ok text, st2)
            | (Raise e, st2) =>
                _handle_tool_execution client model response api_params tm
                  (mkState (heap st2) (world st2)
                     (trace st2 ++ [Printed (fallback_line e)]))
            end
        | None => first_text response st1
        end
    end.
Proof.
  intros api_params turn tr.
  unfold generate_response, bind at 1, new_list. cbv beta.
  fold api_params. unfold bind at 1, create. cbn [heap world trace].
  replace (messages_of api_params (heap st ++ _)) with turn.
  2:{ unfold messages_of, api_params. rewrite api_params_messages.
      rewrite deref_newest. reflexivity. }
  fold (user_turn query). fold turn. fold tr.
  destruct (client api_params turn (world st)) as [[response|e] w];
    [|reflexivity].
  destruct (if String.eqb _ _ then tmo else None) as [tm|]; [|reflexivity].
  unfold try_except.
  destruct (_handle_sequential_tool_execution _ _ _ _ _ _)
    as [[text|e] st2]; reflexivity.
Qed.

(** The direct path.  When the first response's stop reason is not
    ["tool_use"], [generate_response] ends with
    [response.content[0].text] in the state the first model call left:
    the trace has grown by that one call and nothing else, so no tool was
    executed and no second call made; when the first content block
    exists and has text, that text is the answer. *)
Theorem direct_answer query hist tools (tmo : option ToolManager)
    (st : State) response w :
  let api_params := api_params_for model (length (heap st)) hist tools in
  let st' :=
    mkState (heap st ++ [[user_turn query]]) w
      (trace st ++ [ModelCall api_params [user_turn query]]) in
  client api_params [user_turn query] (world st) = (Ok response, w) ->
  Response.stop_reason response <> "tool_use" ->
  generate_response client model query hist tools tmo st
  = first_text response st'
  /\ snd (generate_response client model query hist tools tmo st) = st'
  /\ (forall block rest t,
        Response.content response = block :: rest ->
        Block.text block = Some t ->
        generate_response client model query hist tools tmo st
        = (Ok t, st')).
Proof.
  intros api_params st' Hcall Hstop.
  assert (Hrun : generate_response client model query hist tools tmo st
                 = first_text response st').
  { rewrite generate_response_run. cbv zeta. fold api_params.
    rewrite Hcall. apply String.eqb_neq in Hstop. rewrite Hstop.
    reflexivity. }
  split; [exact Hrun|]. split.
  - rewrite Hrun. apply first_text_state.
  - intros block rest t Hc Ht. rewrite Hrun. unfold first_text.
    rewrite Hc, Ht. reflexivity.
Qed.

Lemma append_nonempty_neq s c t : s +:+ String c t <> s.
Proof.
  induction s as [|a s IH]; intros H.
  - discriminate H.
  - change (String a (s +:+ String c t) = String a s) in H.
    injection H as H. exact (IH H).
Qed.

(** C9.  The first thing [generate_response] does to the outside world
    is the initial model call.  Its request has the tool definitions
    and the tool choice ["auto"] when a non-empty [tools] list is
    given, and neither key otherwise; its messages are a fresh list
    holding the one user turn with the query; its system text is the
    fixed prompt, followed by the previous-conversation section exactly
    when a non-empty history is given; and it carries the generator's
    model, temperature 0 and 800 maximal tokens. *)
Theorem initial_request query hist tools (tmo : option ToolManager)
    (st : State) :
  exists p later,
    trace (snd (generate_response client model query hist tools tmo st))
    = trace st ++ ModelCall p [user_turn query] :: later
    /\ Params.messages p = Some (length (heap st))
    /\ heap st !! length (heap st) = None
    /\ Params.model p = Some model
    /\ Params.temperature p = Some 0%Z
    /\ Params.max_tokens p = Some 800%Z
    /\ (forall ts, tools = Some ts -> ts <> [] ->
        Params.tools p = Some ts
        /\ Params.tool_choice p = Some (ToolChoice.mk "auto"))
    /\ (tools = None \/ tools = Some [] ->
        Params.tools p = None /\ Params.tool_choice p = None)
    /\ (forall h, hist = Some h -> h <> EmptyString ->
        Params.system p
        = Some (SYSTEM_PROMPT +:+ nl +:+ nl +:+ "Previous conversation:"
                +:+ nl +:+ h))
    /\ (hist = None \/ hist = Some EmptyString ->
        Params.system p = Some SYSTEM_PROMPT)
    /\ (Params.system p = Some SYSTEM_PROMPT ->
        hist = None \/ hist = Some EmptyString).
Proof.
  set (p := api_params_for model (length (heap st)) hist tools).
  assert (Htrace : exists later,
    trace (snd (generate_response client model query hist tools tmo st))
    = trace st ++ ModelCall p [user_turn query] :: later).
  { rewrite generate_response_run. cbv zeta. fold p.
    destruct (client p [user_turn query] (world st)) as [[response|e] w].
    2:{ exists []. reflexivity. }
    destruct (if String.eqb _ _ then tmo else None) as [tm|].
    2:{ exists []. rewrite first_text_state. reflexivity. }
    set (st1 := mkState _ w _).
    destruct (sequential_frame response p tm 2 st1)
      as (extra & evs & _ & Ht & _). cbv zeta in Ht.
    destruct (_handle_sequential_tool_execution client response p tm 2 st1)
      as [[text|e] st2]; simpl in Ht.
    - exists evs. simpl. rewrite Ht. subst st1. simpl.
      rewrite <- app_assoc. reflexivity.
    - set (st3 := mkState _ _ _).
      destruct (legacy_frame response p tm st3)
        as (extra' & evs' & _ & Ht'). cbv zeta in Ht'.
      rewrite Ht'. subst st3 st1. simpl. rewrite Ht. simpl.
      exists (evs ++ [Printed (fallback_line e)] ++ evs').
      rewrite <- !app_assoc. reflexivity. }
  destruct Htrace as (later & Htrace).
  assert (Hsys : Params.system p = Some (system_content hist))
    by apply api_params_system.
  exists p, later. split; [exact Htrace|].
  split; [apply api_params_messages|].
  split; [apply lookup_ge_None; lia|].
  rewrite Hsys. clear Hsys Htrace. subst p. unfold api_params_for.
  split; [destruct tools as [[|t ts]|]; reflexivity|].
  split; [destruct tools as [[|t ts]|]; reflexivity|].
  split; [destruct tools as [[|t ts]|]; reflexivity|].
  split.
  { intros ts -> Hne. destruct ts; [contradiction|]. split; reflexivity. }
  split.
  { intros [-> | ->]; split; reflexivity. }
  split.
  { intros h -> Hne. destruct h; [contradiction | reflexivity]. }
  split.
  { intros [-> | ->]; reflexivity. }
  intros H. destruct hist as [[|c rest]|]; auto.
  exfalso.
  apply (append_nonempty_neq SYSTEM_PROMPT (ascii_of_nat 10)
           (nl +:+ "Previous conversation:" +:+ nl +:+ String c rest)).
  apply (f_equal (fun o => default EmptyString o)) in H. exact H.
Qed.

Lemma deref_older pre x extra :
  deref ((pre ++ [x]) ++ extra) (length pre) = x.
Proof.
  unfold deref. rewrite <- app_assoc. simpl.
  rewrite list_lookup_middle; reflexivity.
Qed.

(** The fallback edge.  Let the first response ask for tool use and let
    the sequential handler raise [e], leaving state [st2].  Then
    [generate_response] does not raise [e]: it prints the fallback line
    and ends as the legacy handler ends from there.  The legacy handler
    executes the tool-use blocks of the initial response (once, in
    order) and makes one model call whose request has neither ["tools"]
    nor ["tool_choice"] and whose messages are the user turn, the
    assistant turn and the tool results.  When that call answers with a
    first content block that has text, the text is returned; when the
    call raises, its exception leaves [generate_response]. *)
Theorem fallback_to_legacy query hist tools (tm : ToolManager)
    (st : State) response w e st2 :
  let api_params := api_params_for model (length (heap st)) hist tools in
  let st1 :=
    mkState (heap st ++ [[user_turn query]]) w
      (trace st ++ [ModelCall api_params [user_turn query]]) in
  let st3 :=
    mkState (heap st2) (world st2)
      (trace st2 ++ [Printed (fallback_line e)]) in
  client api_params [user_turn query] (world st) = (Ok response, w) ->
  Response.stop_reason response = "tool_use" ->
  _handle_sequential_tool_execution client response api_params tm 2 st1
  = (Raise e, st2) ->
  generate_response client model query hist tools (Some tm) st
  = _handle_tool_execution client model response api_params tm st3
  /\ exists results w',
      tool_run tm (world st2) (Response.content response) results
        (tool_calls_of response) w'
      /\ let msgs := user_turn query :: legacy_turns response results in
         let fp := final_params model (length (heap st2)) (system_content hist) in
         let st4 := fun w'' =>
           mkState (heap st2 ++ [msgs]) w''
             (trace st3 ++ tool_calls_of response ++ [ModelCall fp msgs]) in
         Params.tools fp = None
         /\ Params.tool_choice fp = None
         /\ (forall final w'',
               client fp msgs w' = (Ok final, w'') ->
               generate_response client model query hist tools (Some tm) st
               = first_text final (st4 w'')
               /\ forall block rest t,
                    Response.content final = block :: rest ->
                    Block.text block = Some t ->
                    generate_response client model query hist tools
                      (Some tm) st = (Ok t, st4 w''))
         /\ (forall e' w'',
               client fp msgs w' = (Raise e', w'') ->
               generate_response client model query hist tools (Some tm) st
               = (Raise e', st4 w'')).
Proof.
  intros api_params st1 st3 Hcall Hstop Hseq.
  assert (Hrun :
    generate_response client model query hist tools (Some tm) st
    = _handle_tool_execution client model response api_params tm st3).
  { rewrite generate_response_run. cbv zeta. fold api_params.
    rewrite Hcall. apply String.eqb_eq in Hstop. rewrite Hstop.
    fold st1. rewrite Hseq. reflexivity. }
  split; [exact Hrun|].
  destruct (sequential_frame response api_params tm 2 st1)
    as (extra & evs0 & Hheap & _ & _).
  cbv zeta in Hheap. rewrite Hseq in Hheap. simpl in Hheap.
  destruct (legacy_run response api_params tm st3 (length (heap st))
              (api_params_messages _ _ _))
    as (results & evs & w' & Htools & Hlegacy).
  cbv zeta in Hlegacy.
  pose proof (tool_run_calls _ _ _ _ _ _ Htools) as Hevs.
  fold (tool_uses response) in Hevs. fold (tool_calls_of response) in Hevs.
  subst evs.
  unfold api_params in Hlegacy at 2. rewrite api_params_system in Hlegacy.
  replace (deref (heap st3) (length (heap st))) with [user_turn query]
    in Hlegacy
    by (subst st3; simpl; rewrite Hheap; symmetry; apply deref_older).
  exists results, w'. split; [exact Htools|]. cbv zeta.
  split; [reflexivity|]. split; [reflexivity|].
  rewrite Hrun, Hlegacy. simpl app. simpl heap. split.
  - intros final w'' Hfinal. rewrite Hfinal. split; [reflexivity|].
    intros block rest t Hc Ht. unfold first_text. rewrite Hc, Ht.
    reflexivity.
  - intros e' w'' Hfinal. rewrite Hfinal. reflexivity.
Qed.

(** C10.  Neither handler, and so not [generate_response] either,
    mutates a list that was in the store when it was called: the store
    after the run is the store before it, followed by the lists created
    during the run.  In particular the list the caller's [base_params]
    refers to is as it was, and after [generate_response] the list of
    the initial request, created at the first free address, holds
    exactly the one user turn. *)
Theorem caller_messages_not_mutated initial bp (tm : ToolManager)
    max_rounds query hist tools (tmo : option ToolManager) (st : State) :
  (exists extra,
      heap (snd (_handle_sequential_tool_execution client initial bp tm
                   max_rounds st)) = heap st ++ extra)
  /\ (exists extra,
        heap (snd (_handle_tool_execution client model initial bp tm st))
        = heap st ++ extra)
  /\ (exists extra,
        heap (snd (generate_response client model query hist tools tmo st))
        = heap st ++ [user_turn query] :: extra)
  /\ heap (snd (generate_response client model query hist tools tmo st))
       !! length (heap st) = Some [user_turn query].
Proof.
  assert (Hgen : exists extra,
    heap (snd (generate_response client model query hist tools tmo st))
    = heap st ++ [user_turn query] :: extra).
  { rewrite generate_response_run. cbv zeta.
    set (p := api_params_for model (length (heap st)) hist tools).
    destruct (client p [user_turn query] (world st)) as [[response|e] w].
    2:{ exists []. reflexivity. }
    destruct (if String.eqb _ _ then tmo else None) as [tm'|].
    2:{ exists []. rewrite first_text_state. reflexivity. }
    set (st1 := mkState _ w _).
    destruct (sequential_frame response p tm' 2 st1)
      as (extra & evs & Hh & _ & _). cbv zeta in Hh.
    destruct (_handle_sequential_tool_execution client response p tm' 2 st1)
      as [[text|e] st2]; simpl in Hh.
    - exists extra. simpl. rewrite Hh, <- app_assoc. reflexivity.
    - set (st3 := mkState _ _ _).
      destruct (legacy_frame response p tm' st3)
        as (extra' & evs' & Hh' & _). cbv zeta in Hh'.
      rewrite Hh'. subst st3. simpl. rewrite Hh.
      exists (extra ++ extra'). rewrite <- !app_assoc. reflexivity. }
  split.
  { destruct (sequential_frame initial bp tm max_rounds st)
      as (extra & evs & Hh & _). eauto. }
  split.
  { destruct (legacy_frame initial bp tm st) as (extra & evs & Hh & _).
    eauto. }
  split; [exact Hgen|].
  destruct Hgen as (extra & ->). apply list_lookup_middle. reflexivity.
Qed.

End Properties.

(** ** Further properties of the handlers *)

Section Further.

Context {World : Type}.
Variable client : @Client World.
Variable model : string.

Abbreviation State := (@State World).
Abbreviation ToolManager := (@ToolManager World).

(** One iteration whose guard holds, with the loop's list [x] as the
    newest list of the store: the tools of [cur] are executed, and the
    iteration breaks, raises for a missing ["system"], returns the round
    error, or goes on with the next response. *)
Lemma round_cases fuel bp (tm : ToolManager) max_rounds pre x rc cur
    (st : State) :
  heap st = pre ++ [x] ->
  loop_guard max_rounds rc cur = true ->
  exists results w1,
    tool_run tm (world st) (Response.content cur) results
      (tool_calls_of cur) w1
    /\ let tr1 := trace st ++ tool_calls_of cur in
       let x1 := x ++ [assistant_turn cur] in
       let x2 := x1 ++ [results_turn results] in
       while_rounds client (S fuel) bp tm max_rounds (length pre) rc cur st
       = match results with
         | [] => (Ok (Fell cur (rc + 1)), mkState (pre ++ [x1]) w1 tr1)
         | _ :: _ =>
             match Params.system bp with
             | None =>
                 (Raise (KeyError "system"), mkState (pre ++ [x2]) w1 tr1)
             | Some sys =>
                 let np := Params.with_system sys
                             (Params.with_messages (length pre) bp) in
                 let tr2 := tr1 ++ [ModelCall np x2] in
                 match client np x2 w1 with
                 | (Ok next, w2) =>
                     while_rounds client fuel bp tm max_rounds (length pre)
                       (rc + 1) next (mkState (pre ++ [x2]) w2 tr2)
                 | (Raise e, w2) =>
                     (Ok (Returned (round_error (rc + 1) e)),
                      mkState (pre ++ [x2]) w2 tr2)
                 end
             end
         end.
Proof.
  intros Hheap Hg.
  rewrite while_rounds_step, Hg.
  destruct (prepare_round_run bp tm (length pre) cur st)
    as (rs & evs & w1 & Htools & Hprep).
  pose proof (tool_run_calls _ _ _ _ _ _ Htools) as Hevs.
  change (evs = tool_calls_of cur) in Hevs. subst evs.
  exists rs, w1. split; [exact Htools|]. cbv zeta.
  rewrite Hprep, Hheap, push_newest.
  destruct rs as [|r rs]; [reflexivity|].
  cbv zeta. rewrite push_newest.
  destruct (Params.system bp) as [sys|]; [|reflexivity].
  unfold create. cbn [heap world trace].
  replace (messages_of _ (pre ++ [_]))
    with ((x ++ [assistant_turn cur]) ++ [results_turn (r :: rs)])
    by (unfold messages_of; simpl; rewrite deref_newest; reflexivity).
  destruct (client _ _ w1) as [[next|e] w2]; reflexivity.
Qed.

Lemma model_calls_app evs1 evs2 :
  model_calls (evs1 ++ evs2) = (model_calls evs1 + model_calls evs2)%nat.
Proof. unfold model_calls. rewrite List.filter_app, length_app. reflexivity. Qed.

Lemma model_calls_tools response : model_calls (tool_calls_of response) = 0%nat.
Proof. unfold model_calls. rewrite tool_calls_not_model. reflexivity. Qed.

Lemma while_rounds_call_bound bp (tm : ToolManager) max_rounds fuel :
  forall rc cur (st : State) pre x,
    heap st = pre ++ [x] ->
    exists evs,
      trace (snd (while_rounds client fuel bp tm max_rounds (length pre)
                    rc cur st)) = trace st ++ evs
      /\ (model_calls evs <= fuel)%nat.
Proof.
  induction fuel as [|fuel IH]; intros rc cur st pre x Hheap.
  - exists []. simpl. rewrite app_nil_r. split; [reflexivity | cbn; lia].
  - destruct (loop_guard max_rounds rc cur) eqn:Hg.
    2:{ rewrite while_rounds_step, Hg. exists []. simpl.
        rewrite app_nil_r. split; [reflexivity | cbn; lia]. }
    destruct (round_cases fuel bp tm max_rounds pre x rc cur st Hheap Hg)
      as (rs & w1 & _ & Hstep).
    cbv zeta in Hstep. rewrite Hstep. clear Hstep.
    destruct rs as [|r rs].
    { exists (tool_calls_of cur). simpl. rewrite model_calls_tools.
      split; [reflexivity | lia]. }
    destruct (Params.system bp) as [sys|].
    2:{ exists (tool_calls_of cur). simpl. rewrite model_calls_tools.
        split; [reflexivity | lia]. }
    destruct (client _ _ w1) as [[next|e] w2].
    + match goal with
      | |- context [while_rounds client fuel bp tm max_rounds (length pre)
                      (rc + 1) next ?s] =>
          destruct (IH (rc + 1)%Z next s pre _ eq_refl) as (evs & Ht & Hn)
      end.
      rewrite Ht. simpl. eexists. rewrite <- !app_assoc.
      split; [reflexivity|].
      rewrite !model_calls_app, model_calls_tools. simpl.
      unfold model_calls in *. simpl. lia.
    + eexists. simpl. rewrite <- app_assoc. split; [reflexivity|].
      rewrite model_calls_app, model_calls_tools.
      unfold model_calls. simpl. lia.
Qed.

(** X1.  Whatever the client and the tools do, the sequential handler
    makes at most [max_rounds] model calls (none when [max_rounds] is not
    positive). *)
Theorem sequential_call_bound initial bp (tm : ToolManager) max_rounds
    (st : State) :
  exists evs,
    trace (snd (_handle_sequential_tool_execution client initial bp tm
                  max_rounds st)) = trace st ++ evs
    /\ (model_calls evs <= Z.to_nat max_rounds)%nat.
Proof.
  destruct (Params.messages bp) as [original|] eqn:Hm.
  - rewrite (sequential_run _ _ _ _ _ _ _ Hm). unfold loop_from.
    rewrite Z.sub_0_r.
    destruct (while_rounds_call_bound bp tm max_rounds (Z.to_nat max_rounds)
                0%Z initial (loop_start st original) (heap st)
                (deref (heap st) original) eq_refl)
      as (evs & Ht & Hn).
    exists evs. split; [|exact Hn].
    destruct (while_rounds client _ bp tm max_rounds _ 0 initial _)
      as [[exit|e] st']; [rewrite finish_state|]; exact Ht.
  - exists []. unfold _handle_sequential_tool_execution. rewrite Hm.
    simpl. rewrite app_nil_r. split; [reflexivity | unfold model_calls; simpl; lia].
Qed.

Lemma while_rounds_raises bp (tm : ToolManager) max_rounds fuel :
  forall rc cur (st : State) pre x e st',
    heap st = pre ++ [x] ->
    while_rounds client fuel bp tm max_rounds (length pre) rc cur st
    = (Raise e, st') ->
    e = KeyError "system" /\ Params.system bp = None.
Proof.
  induction fuel as [|fuel IH]; intros rc cur st pre x e st' Hheap Hrun.
  - discriminate Hrun.
  - destruct (loop_guard max_rounds rc cur) eqn:Hg.
    2:{ rewrite while_rounds_step, Hg in Hrun. discriminate Hrun. }
    destruct (round_cases fuel bp tm max_rounds pre x rc cur st Hheap Hg)
      as (rs & w1 & _ & Hstep).
    cbv zeta in Hstep. rewrite Hstep in Hrun. clear Hstep.
    destruct rs as [|r rs]; [discriminate Hrun|].
    destruct (Params.system bp) as [sys|].
    2:{ inversion Hrun. auto. }
    destruct (client _ _ w1) as [[next|e'] w2]; [|discriminate Hrun].
    eapply (IH (rc + 1)%Z next _ pre) in Hrun; [|reflexivity].
    destruct Hrun as (_ & Hnone). discriminate Hnone.
Qed.

(** X3.  Exceptions are modelled as instances of [Exception], the ones
    the handler's [except Exception] clauses catch.  None raised by the
    model call of a round or by a tool escapes the sequential handler.  If
    the handler raises, it raises [KeyError] for a missing ["messages"] or
    ["system"] key of [base_params], or the loop was left by falling out
    with a terminal response whose first block has no [text] attribute,
    and the exception is the [AttributeError] of that access, naming the
    block's class. *)
Theorem sequential_raises_only initial bp (tm : ToolManager) max_rounds
    (st : State) e st' :
  _handle_sequential_tool_execution client initial bp tm max_rounds st
  = (Raise e, st') ->
  (e = KeyError "messages" /\ Params.messages bp = None)
  \/ (e = KeyError "system" /\ Params.system bp = None)
  \/ (exists original cur rc block rest,
        Params.messages bp = Some original
        /\ while_rounds client (Z.to_nat max_rounds) bp tm max_rounds
             (length (heap st)) 0 initial (loop_start st original)
           = (Ok (Fell cur rc), st')
        /\ Response.content cur = block :: rest
        /\ Block.text block = None
        /\ e = AttributeError (Block.class_name block) "text").
Proof.
  intros Hrun.
  destruct (Params.messages bp) as [original|] eqn:Hm.
  - rewrite (sequential_run _ _ _ _ _ _ _ Hm) in Hrun. unfold loop_from in Hrun.
    rewrite Z.sub_0_r in Hrun.
    destruct (while_rounds client _ bp tm max_rounds _ 0 initial _)
      as [[exit|e'] st1] eqn:Hloop.
    + right. right. destruct exit as [s|cur rc]; [discriminate Hrun|].
      unfold finish, final_text, first_text in Hrun.
      destruct (Response.content cur) as [|b bs] eqn:Hc; [discriminate Hrun|].
      destruct (Block.text b) eqn:Hb; [discriminate Hrun|].
      inversion Hrun; subst.
      exists original, cur, rc, b, bs. auto.
    + right. left. inversion Hrun; subst.
      exact (while_rounds_raises bp tm max_rounds _ 0%Z initial
               (loop_start st original) (heap st) (deref (heap st) original)
               e st' eq_refl Hloop).
  - left. unfold _handle_sequential_tool_execution in Hrun.
    rewrite Hm in Hrun. inversion Hrun. auto.
Qed.

Lemma tool_run_some (tm : ToolManager) w response results evs w' :
  tool_run tm w (Response.content response) results evs w' ->
  tool_uses response <> [] ->
  results <> [].
Proof.
  intros Hrun Huses ->.
  apply tool_run_results in Hrun. apply Forall2_length in Hrun.
  fold (tool_uses response) in Hrun.
  destruct (tool_uses response); [congruence | discriminate Hrun].
Qed.

Lemma guard_holds max_rounds rc cur :
  (rc < max_rounds)%Z ->
  Response.stop_reason cur = "tool_use" ->
  loop_guard max_rounds rc cur = true.
Proof.
  intros Hlt Hs. unfold loop_guard. rewrite Hs.
  apply Z.ltb_lt in Hlt. rewrite Hlt. reflexivity.
Qed.

Lemma always_tool_use_loop bp (tm : ToolManager) max_rounds sys :
  Params.system bp = Some sys ->
  (forall p ms w, exists r w',
      client p ms w = (Ok r, w')
      /\ Response.stop_reason r = "tool_use" /\ tool_uses r <> []) ->
  forall fuel rc cur (st : State) pre x,
    heap st = pre ++ [x] ->
    fuel = Z.to_nat (max_rounds - rc) ->
    Response.stop_reason cur = "tool_use" ->
    tool_uses cur <> [] ->
    exists last st' evs,
      while_rounds client fuel bp tm max_rounds (length pre) rc cur st
      = (Ok (Fell last (rc + Z.of_nat fuel)), st')
      /\ trace st' = trace st ++ evs
      /\ model_calls evs = fuel.
Proof.
  intros Hsys Hclient.
  induction fuel as [|fuel IH]; intros rc cur st pre x Hheap Hfuel Hstop Huses.
  - exists cur, st, []. simpl. rewrite Z.add_0_r, app_nil_r. auto.
  - assert (Hg : loop_guard max_rounds rc cur = true)
      by (apply guard_holds; [lia | exact Hstop]).
    destruct (round_cases fuel bp tm max_rounds pre x rc cur st Hheap Hg)
      as (rs & w1 & Htools & Hstep).
    cbv zeta in Hstep. rewrite Hstep. clear Hstep.
    pose proof (tool_run_some _ _ _ _ _ _ Htools Huses) as Hsome.
    destruct rs as [|r rs]; [contradiction|].
    rewrite Hsys.
    match goal with
    | |- context [client ?p ?ms w1] =>
        destruct (Hclient p ms w1) as (next & w2 & Hcall & Hstop' & Huses')
    end.
    rewrite Hcall.
    match goal with
    | |- context [while_rounds client fuel bp tm max_rounds (length pre)
                    (rc + 1) next ?s] =>
        destruct (IH (rc + 1)%Z next s pre _ eq_refl ltac:(lia) Hstop' Huses')
          as (last & st' & evs & Hrun & Ht & Hn)
    end.
    rewrite Hrun. eexists last, st', _. split.
    { replace (rc + Z.of_nat (S fuel))%Z with (rc + 1 + Z.of_nat fuel)%Z
        by lia.
      reflexivity. }
    split.
    { rewrite Ht. simpl. rewrite <- !app_assoc. reflexivity. }
    rewrite !model_calls_app, model_calls_tools, Hn. reflexivity.
Qed.

(** X2.  The round bound is met exactly by a client that never stops
    asking: when every response (the initial one included) has stop
    reason ["tool_use"] and a tool-use block and the client always
    answers, the handler makes exactly [max_rounds] model calls, leaves
    the loop with [round_count = max_rounds] (0 when [max_rounds] is
    negative) and finishes with the final text of the last response. *)
Theorem always_tool_use_exact_rounds initial bp (tm : ToolManager)
    max_rounds (st : State) original sys :
  Params.messages bp = Some original ->
  Params.system bp = Some sys ->
  (forall p ms w, exists r w',
      client p ms w = (Ok r, w')
      /\ Response.stop_reason r = "tool_use" /\ tool_uses r <> []) ->
  Response.stop_reason initial = "tool_use" ->
  tool_uses initial <> [] ->
  exists last st' evs,
    while_rounds client (Z.to_nat max_rounds) bp tm max_rounds
      (length (heap st)) 0 initial (loop_start st original)
    = (Ok (Fell last (Z.max 0 max_rounds)), st')
    /\ _handle_sequential_tool_execution client initial bp tm max_rounds st
       = final_text last st'
    /\ trace st' = trace st ++ evs
    /\ model_calls evs = Z.to_nat max_rounds.
Proof.
  intros Hm Hsys Hclient Hstop Huses.
  destruct (always_tool_use_loop bp tm max_rounds sys Hsys Hclient
              (Z.to_nat max_rounds) 0%Z initial (loop_start st original)
              (heap st) (deref (heap st) original) eq_refl
              ltac:(rewrite Z.sub_0_r; reflexivity) Hstop Huses)
    as (last & st' & evs & Hrun & Ht & Hn).
  replace (0 + Z.of_nat (Z.to_nat max_rounds))%Z with (Z.max 0 max_rounds)
    in Hrun by lia.
  exists last, st', evs. split; [exact Hrun|]. split; [|auto].
  rewrite (sequential_run _ _ _ _ _ _ _ Hm). unfold loop_from.
  rewrite Z.sub_0_r, Hrun. reflexivity.
Qed.



Lemma paired_app turns more :
  paired turns -> paired more -> paired (turns ++ more).
Proof.
  induction 1; intros Hmore; simpl; [exact Hmore|].
  constructor; auto.
Qed.

Lemma tool_calls_paired before response :
  Forall (paired_call before) (tool_calls_of response).
Proof.
  unfold tool_calls_of. induction (tool_uses response); simpl; constructor;
    simpl; auto.
Qed.

Lemma while_rounds_paired bp (tm : ToolManager) max_rounds fuel :
  forall rc cur (st : State) pre before turns,
    heap st = pre ++ [before ++ turns] ->
    paired turns ->
    exists evs,
      trace (snd (while_rounds client fuel bp tm max_rounds (length pre)
                    rc cur st)) = trace st ++ evs
      /\ Forall (paired_call before) evs.
Proof.
  induction fuel as [|fuel IH]; intros rc cur st pre before turns Hheap Hp.
  - exists []. simpl. rewrite app_nil_r. auto.
  - destruct (loop_guard max_rounds rc cur) eqn:Hg.
    2:{ rewrite while_rounds_step, Hg. exists []. simpl.
        rewrite app_nil_r. auto. }
    destruct (round_cases fuel bp tm max_rounds pre _ rc cur st Hheap Hg)
      as (rs & w1 & Htools & Hstep).
    cbv zeta in Hstep. rewrite Hstep. clear Hstep.
    pose proof (tool_run_ids _ _ _ _ _ _ Htools) as Hids.
    fold (tool_uses cur) in Hids.
    destruct rs as [|r rs].
    { exists (tool_calls_of cur). split; [reflexivity|].
      apply tool_calls_paired. }
    destruct (Params.system bp) as [sys|].
    2:{ exists (tool_calls_of cur). split; [reflexivity|].
        apply tool_calls_paired. }
    set (more := [assistant_turn cur; results_turn (r :: rs)]).
    assert (Hx2 : ((before ++ turns) ++ [assistant_turn cur])
                  ++ [results_turn (r :: rs)] = before ++ (turns ++ more))
      by (subst more; rewrite <- !app_assoc; reflexivity).
    rewrite !Hx2.
    assert (Hp2 : paired (turns ++ more)).
    { apply paired_app; [exact Hp|]. subst more.
      constructor; [discriminate | exact Hids | constructor]. }
    assert (Hcall : forall p, paired_call before
                                (ModelCall p (before ++ (turns ++ more)))).
    { intros p. simpl. exists (turns ++ more).
      split; [reflexivity|]. split; [exact Hp2|].
      subst more. destruct turns; discriminate. }
    destruct (client _ _ w1) as [[next|e] w2].
    + match goal with
      | |- context [while_rounds client fuel bp tm max_rounds (length pre)
                      (rc + 1) next ?s] =>
          destruct (IH (rc + 1)%Z next s pre before (turns ++ more)
                      eq_refl Hp2) as (evs & Ht & Hf)
      end.
      rewrite Ht. simpl. eexists. rewrite <- !app_assoc.
      split; [reflexivity|].
      apply Forall_app. split; [apply tool_calls_paired|].
      constructor; [apply Hcall | exact Hf].
    + eexists. simpl. rewrite <- app_assoc. split; [reflexivity|].
      apply Forall_app. split; [apply tool_calls_paired|].
      constructor; [apply Hcall | constructor].
Qed.

(** X4.  Every request the sequential handler sends keeps the pairing of
    the tool protocol: its messages are the caller's messages followed by
    one or more rounds, each an assistant turn with the blocks of a
    response and then a user turn with exactly one result per tool-use
    block of that response, in the blocks' order and under their ids.  No
    request is sent with a tool call left unanswered. *)
Theorem loop_calls_are_paired initial bp (tm : ToolManager) max_rounds
    (st : State) :
  exists evs,
    trace (snd (_handle_sequential_tool_execution client initial bp tm
                  max_rounds st)) = trace st ++ evs
    /\ Forall
         (fun ev =>
            match ev with
            | ModelCall _ ms =>
                exists turns,
                  ms = messages_of bp (heap st) ++ turns
                  /\ paired turns /\ turns <> []
            | _ => True
            end) evs.
Proof.
  destruct (Params.messages bp) as [original|] eqn:Hm.
  - rewrite (sequential_run _ _ _ _ _ _ _ Hm). unfold loop_from.
    destruct (while_rounds_paired bp tm max_rounds (Z.to_nat (max_rounds - 0))
                0%Z initial (loop_start st original) (heap st)
                (deref (heap st) original) []
                ltac:(simpl; rewrite app_nil_r; reflexivity) paired_none)
      as (evs & Ht & Hf).
    exists evs. unfold messages_of. rewrite Hm. split; [|exact Hf].
    destruct (while_rounds client _ bp tm max_rounds _ 0 initial _)
      as [[exit|e] st']; [rewrite finish_state|]; exact Ht.
  - exists []. unfold _handle_sequential_tool_execution. rewrite Hm.
    simpl. rewrite app_nil_r. auto.
Qed.

Lemma tool_run_functional (tm : ToolManager) w blocks r1 e1 w1 r2 e2 w2 :
  tool_run tm w blocks r1 e1 w1 ->
  tool_run tm w blocks r2 e2 w2 ->
  r1 = r2 /\ e1 = e2 /\ w1 = w2.
Proof.
  intros H. revert r2 e2 w2.
  induction H as [w | w b rest rs evs w' Hty _ IH
                  | w b rest out wa rs evs w' Hty Hcall _ IH
                  | w b rest e wa rs evs w' Hty Hcall _ IH];
    intros r2 e2 w2 H2; inversion H2; subst; try contradiction; auto.
  - match goal with
    | Hc : tm _ _ w = (Ok _, _) |- _ =>
        rewrite Hcall in Hc; inversion Hc; subst
    end.
    match goal with
    | Hr : tool_run tm _ rest _ _ _ |- _ =>
        destruct (IH _ _ _ Hr) as (-> & -> & ->)
    end.
    auto.
  - match goal with
    | Hc : tm _ _ w = (Raise _, _) |- _ =>
        rewrite Hcall in Hc; discriminate Hc
    end.
  - match goal with
    | Hc : tm _ _ w = (Ok _, _) |- _ =>
        rewrite Hcall in Hc; discriminate Hc
    end.
  - match goal with
    | Hc : tm _ _ w = (Raise _, _) |- _ =>
        rewrite Hcall in Hc; inversion Hc; subst
    end.
    match goal with
    | Hr : tool_run tm _ rest _ _ _ |- _ =>
        destruct (IH _ _ _ Hr) as (-> & -> & ->)
    end.
    auto.
Qed.

(** X6.  Without a ["messages"] key in [base_params] either handler
    raises [KeyError] at once: nothing is copied, no tool is executed and
    no model call is made. *)
Theorem missing_messages_key initial bp (tm : ToolManager) max_rounds
    (st : State) :
  Params.messages bp = None ->
  _handle_sequential_tool_execution client initial bp tm max_rounds st
  = (Raise (KeyError "messages"), st)
  /\ _handle_tool_execution client model initial bp tm st
     = (Raise (KeyError "messages"), st).
Proof.
  intros Hm.
  unfold _handle_sequential_tool_execution, _handle_tool_execution.
  rewrite Hm. split; reflexivity.
Qed.

(** X7.  Without a ["system"] key the sequential handler fails late: in
    the first round it has already appended both turns to its copy and
    executed the tools of the initial response when it raises [KeyError],
    and it makes no model call.  The legacy handler behaves alike. *)
Theorem missing_system_key initial bp (tm : ToolManager) max_rounds
    (st : State) original :
  Params.messages bp = Some original ->
  Params.system bp = None ->
  (0 < max_rounds)%Z ->
  Response.stop_reason initial = "tool_use" ->
  tool_uses initial <> [] ->
  exists results w1,
    tool_run tm (world st) (Response.content initial) results
      (tool_calls_of initial) w1
    /\ let st' :=
         mkState
           (heap st ++ [deref (heap st) original
                        ++ [assistant_turn initial; results_turn results]])
           w1 (trace st ++ tool_calls_of initial) in
       _handle_sequential_tool_execution client initial bp tm max_rounds st
       = (Raise (KeyError "system"), st')
       /\ _handle_tool_execution client model initial bp tm st
          = (Raise (KeyError "system"), st').
Proof.
  intros Hm Hsys Hpos Hstop Huses.
  pose proof (guard_holds max_rounds 0 initial Hpos Hstop) as Hg.
  destruct (Z.to_nat max_rounds) as [|fuel] eqn:Hfuel; [lia|].
  destruct (round_cases fuel bp tm max_rounds (heap st)
              (deref (heap st) original) 0%Z initial
              (loop_start st original) eq_refl Hg)
    as (rs & w1 & Htools & Hstep).
  cbv zeta in Hstep. simpl world in Htools.
  pose proof (tool_run_some _ _ _ _ _ _ Htools Huses) as Hsome.
  exists rs, w1. split; [exact Htools|]. cbv zeta. split.
  - rewrite (sequential_run _ _ _ _ _ _ _ Hm). unfold loop_from.
    rewrite Z.sub_0_r, Hfuel, Hstep.
    destruct rs as [|r rs]; [contradiction|].
    rewrite Hsys. simpl. rewrite <- app_assoc. reflexivity.
  - destruct (legacy_run client model initial bp tm st original Hm)
      as (rs' & evs & w1' & Htools' & Hrun).
    cbv zeta in Hrun. rewrite Hrun, Hsys.
    destruct (tool_run_functional _ _ _ _ _ _ _ _ _ Htools' Htools)
      as (-> & -> & ->).
    unfold legacy_turns. destruct rs as [|r rs]; [contradiction|].
    reflexivity.
Qed.

(** The first round of a run whose guard holds on entry. *)
Lemma first_round_run initial bp (tm : ToolManager) max_rounds
    (st : State) original :
  Params.messages bp = Some original ->
  (0 < max_rounds)%Z ->
  Response.stop_reason initial = "tool_use" ->
  exists results w1 rest,
    tool_run tm (world st) (Response.content initial) results
      (tool_calls_of initial) w1
    /\ trace (snd (_handle_sequential_tool_execution client initial bp tm
                     max_rounds st))
       = trace st ++ tool_calls_of initial ++ rest
    /\ (results <> [] ->
        forall sys, Params.system bp = Some sys ->
        exists tail,
          rest = ModelCall
                   (Params.with_system sys
                      (Params.with_messages (length (heap st)) bp))
                   (deref (heap st) original
                    ++ [assistant_turn initial; results_turn results])
                 :: tail).
Proof.
  intros Hm Hpos Hstop.
  pose proof (guard_holds max_rounds 0 initial Hpos Hstop) as Hg.
  destruct (Z.to_nat max_rounds) as [|fuel] eqn:Hfuel; [lia|].
  destruct (round_cases fuel bp tm max_rounds (heap st)
              (deref (heap st) original) 0%Z initial
              (loop_start st original) eq_refl Hg)
    as (rs & w1 & Htools & Hstep).
  cbv zeta in Hstep. simpl world in Htools. simpl trace in Hstep.
  rewrite (sequential_run _ _ _ _ _ _ _ Hm). unfold loop_from.
  rewrite Z.sub_0_r, Hfuel, Hstep. clear Hstep.
  destruct rs as [|r rs].
  { exists [], w1, []. split; [exact Htools|]. split.
    - cbv beta iota. rewrite finish_state, app_nil_r. reflexivity.
    - intros Hne. contradiction. }
  destruct (Params.system bp) as [sys|] eqn:Hsys.
  2:{ exists (r :: rs), w1, []. split; [exact Htools|]. split.
      - rewrite app_nil_r. reflexivity.
      - intros _ sys Hs. discriminate Hs. }
  destruct (client _ _ w1) as [[next|e] w2].
  - match goal with
    | |- context [while_rounds client fuel bp tm max_rounds _ (0 + 1) next ?s] =>
        destruct (while_rounds_call_bound bp tm max_rounds fuel (0 + 1)%Z next
                    s (heap st) _ eq_refl) as (evs & Ht & _);
        destruct (while_rounds client fuel bp tm max_rounds _ (0 + 1) next s)
          as [[exit|e] st'] eqn:Hloop
    end.
    + eexists (r :: rs), w1, (_ :: evs). split; [exact Htools|]. split.
      * rewrite finish_state. simpl in Ht. rewrite Ht.
        rewrite <- !app_assoc. reflexivity.
      * intros _ sys' Hs. inversion Hs; subst sys'. eexists.
        reflexivity.
    + eexists (r :: rs), w1, (_ :: evs). split; [exact Htools|]. split.
      * simpl in Ht. simpl. rewrite Ht.
        rewrite <- !app_assoc. reflexivity.
      * intros _ sys' Hs. inversion Hs; subst sys'. eexists.
        reflexivity.
  - eexists (r :: rs), w1, [_]. split; [exact Htools|]. split.
    + simpl. rewrite <- !app_assoc. reflexivity.
    + intros _ sys' Hs. inversion Hs; subst sys'. eexists.
      reflexivity.
Qed.

(** X8.  A failing tool never stops a round.  When the initial response
    asks for tool use and has a tool-use block (and the bound is
    positive), the first round always gets to its model call, whatever
    the tools return or raise: the request carries the assistant turn
    and a non-empty results turn. *)
Theorem first_round_reaches_model initial bp (tm : ToolManager) max_rounds
    (st : State) original sys :
  Params.messages bp = Some original ->
  Params.system bp = Some sys ->
  (0 < max_rounds)%Z ->
  Response.stop_reason initial = "tool_use" ->
  tool_uses initial <> [] ->
  exists results w1 tail,
    tool_run tm (world st) (Response.content initial) results
      (tool_calls_of initial) w1
    /\ results <> []
    /\ trace (snd (_handle_sequential_tool_execution client initial bp tm
                     max_rounds st))
       = trace st ++ tool_calls_of initial
         ++ ModelCall
              (Params.with_system sys
                 (Params.with_messages (length (heap st)) bp))
              (deref (heap st) original
               ++ [assistant_turn initial; results_turn results])
            :: tail.
Proof.
  intros Hm Hsys Hpos Hstop Huses.
  destruct (first_round_run initial bp tm max_rounds st original Hm Hpos Hstop)
    as (rs & w1 & rest & Htools & Ht & Hrest).
  pose proof (tool_run_some _ _ _ _ _ _ Htools Huses) as Hsome.
  destruct (Hrest Hsome sys Hsys) as (tail & ->).
  exists rs, w1, tail. auto.
Qed.

Lemma legacy_call_bound response bp (tm : ToolManager) (st : State) :
  exists evs,
    trace (snd (_handle_tool_execution client model response bp tm st))
    = trace st ++ evs
    /\ (model_calls evs <= 1)%nat.
Proof.
  destruct (Params.messages bp) as [original|] eqn:Hm.
  - destruct (legacy_run client model response bp tm st original Hm)
      as (rs & evs & w' & Htools & Hrun).
    cbv zeta in Hrun. rewrite Hrun.
    pose proof (tool_run_calls _ _ _ _ _ _ Htools) as Hevs.
    change (evs = tool_calls_of response) in Hevs. subst evs.
    destruct (Params.system bp) as [sys|].
    + destruct (client _ _ w') as [[final|e] w''];
        [rewrite first_text_state|]; simpl; eexists;
        (split; [reflexivity|]);
        rewrite model_calls_app, model_calls_tools; cbn; lia.
    + simpl. eexists. split; [reflexivity|].
      rewrite model_calls_tools. lia.
  - exists []. unfold _handle_tool_execution. rewrite Hm. simpl.
    rewrite app_nil_r. split; [reflexivity | cbn; lia].
Qed.

(** X9.  One call of [generate_response] costs at least one and at most
    four model calls, whatever the client and the tools do: the initial
    call, at most two in the loop, and at most one in the fallback. *)
Theorem generate_response_call_bound query hist tools
    (tmo : option ToolManager) (st : State) :
  exists evs,
    trace (snd (generate_response client model query hist tools tmo st))
    = trace st ++ evs
    /\ (1 <= model_calls evs <= 4)%nat.
Proof.
  rewrite generate_response_run. cbv zeta.
  set (p := api_params_for model (length (heap st)) hist tools).
  destruct (client p [user_turn query] (world st)) as [[response|e] w].
  2:{ eexists. split; [reflexivity | cbn; lia]. }
  destruct (if String.eqb _ _ then tmo else None) as [tm|].
  2:{ rewrite first_text_state. eexists. split; [reflexivity | cbn; lia]. }
  set (st1 := mkState _ w _).
  destruct (sequential_call_bound response p tm 2 st1) as (evs & Ht & Hn).
  destruct (_handle_sequential_tool_execution client response p tm 2 st1)
    as [[text|e] st2]; simpl in Ht.
  - exists (ModelCall p [user_turn query] :: evs). simpl. rewrite Ht.
    subst st1. simpl. rewrite <- app_assoc. split; [reflexivity|].
    change (ModelCall p [user_turn query] :: evs)
      with ([ModelCall p [user_turn query]] ++ evs).
    rewrite model_calls_app. cbn. cbn in Hn. lia.
  - set (st3 := mkState _ _ _).
    destruct (legacy_call_bound response p tm st3) as (evs' & Ht' & Hn').
    rewrite Ht'. subst st3 st1. simpl. rewrite Ht. simpl.
    exists ([ModelCall p [user_turn query]] ++ evs
            ++ [Printed (fallback_line e)] ++ evs').
    rewrite <- !app_assoc. split; [reflexivity|].
    rewrite !model_calls_app. cbn. cbn in Hn. lia.
Qed.

(** X10.  The fallback repeats the tools.  When the sequential handler
    raises after the first response asked for tool use,
    [generate_response] executes the tool calls of that response twice:
    once in the first round of the loop and once more in the legacy
    handler, after the fallback line is printed; the last event is the
    legacy model call. *)
Theorem fallback_runs_tools_twice query hist tools (tm : ToolManager)
    (st : State) response w e st2 :
  let api_params := api_params_for model (length (heap st)) hist tools in
  let st1 :=
    mkState (heap st ++ [[user_turn query]]) w
      (trace st ++ [ModelCall api_params [user_turn query]]) in
  client api_params [user_turn query] (world st) = (Ok response, w) ->
  Response.stop_reason response = "tool_use" ->
  _handle_sequential_tool_execution client response api_params tm 2 st1
  = (Raise e, st2) ->
  exists mid last,
    trace (snd (generate_response client model query hist tools (Some tm) st))
    = trace st
      ++ ModelCall api_params [user_turn query]
         :: tool_calls_of response ++ mid
      ++ Printed (fallback_line e)
         :: tool_calls_of response ++ [last]
    /\ is_model_call last = true.
Proof.
  intros api_params st1 Hcall Hstop Hseq.
  rewrite generate_response_run. cbv zeta. fold api_params.
  rewrite Hcall. pose proof Hstop as Hstop'.
  apply String.eqb_eq in Hstop'. rewrite Hstop'. fold st1. rewrite Hseq.
  destruct (first_round_run response api_params tm 2 st1 (length (heap st))
              (api_params_messages _ _ _ _) ltac:(lia) Hstop)
    as (rs & w1 & mid & _ & Ht & _).
  rewrite Hseq in Ht. simpl in Ht.
  set (st3 := mkState _ _ _).
  destruct (legacy_run client model response api_params tm st3
              (length (heap st)) (api_params_messages _ _ _ _))
    as (rs' & evs & w' & Htools & Hrun).
  cbv zeta in Hrun. rewrite Hrun.
  pose proof (tool_run_calls _ _ _ _ _ _ Htools) as Hevs.
  change (evs = tool_calls_of response) in Hevs. subst evs.
  unfold api_params at 1. rewrite api_params_system.
  destruct (client _ _ w') as [[final|e'] w''];
    [rewrite first_text_state|]; subst st3; simpl; rewrite Ht;
    eexists mid, _;
    (split;
     [rewrite <- !app_assoc; reflexivity | reflexivity]).
Qed.

(** X11.  Without a tool manager no tool is ever executed: whatever the
    stop reason of the first response, even ["tool_use"],
    [generate_response] makes the one model call and ends with
    [response.content[0].text]. *)
Theorem without_tool_manager query hist tools (st : State) response w :
  let api_params := api_params_for model (length (heap st)) hist tools in
  let st' :=
    mkState (heap st ++ [[user_turn query]]) w
      (trace st ++ [ModelCall api_params [user_turn query]]) in
  client api_params [user_turn query] (world st) = (Ok response, w) ->
  generate_response client model query hist tools None st
  = first_text response st'
  /\ snd (generate_response client model query hist tools None st) = st'.
Proof.
  intros api_params st' Hcall.
  assert (Hrun : generate_response client model query hist tools None st
                 = first_text response st').
  { rewrite generate_response_run. cbv zeta. fold api_params.
    rewrite Hcall.
    destruct (String.eqb (Response.stop_reason response) "tool_use");
      reflexivity. }
  split; [exact Hrun|]. rewrite Hrun. apply first_text_state.
Qed.

(** X12.  A fault of the initial model call is not handled:
    [generate_response] raises the client's exception as it is, with or
    without a tool manager, after that one call; there is no fallback
    for it. *)
Theorem initial_fault_propagates query hist tools
    (tmo : option ToolManager) (st : State) e w :
  let api_params := api_params_for model (length (heap st)) hist tools in
  client api_params [user_turn query] (world st) = (Raise e, w) ->
  generate_response client model query hist tools tmo st
  = (Raise e,
     mkState (heap st ++ [[user_turn query]]) w
       (trace st ++ [ModelCall api_params [user_turn query]])).
Proof.
  intros api_params Hcall.
  rewrite generate_response_run. cbv zeta. fold api_params.
  rewrite Hcall. reflexivity.
Qed.

(** X13.  A fault of the model call in the first round is the answer.
    When the first response asks for tool use and the call that submits
    the tool results raises [e], [generate_response] returns the text
    ["Error in tool execution round 1: <str e>"] as a normal result: it
    prints nothing, does not fall back to the legacy handler, and has
    made two model calls. *)
Theorem loop_fault_is_the_answer query hist tools (tm : ToolManager)
    (st : State) response w results w1 e w2 :
  let api_params := api_params_for model (length (heap st)) hist tools in
  let copy := length (heap st ++ [[user_turn query]]) in
  let np :=
    Params.with_system (system_content hist)
      (Params.with_messages copy api_params) in
  let msgs :=
    [user_turn query; assistant_turn response; results_turn results] in
  client api_params [user_turn query] (world st) = (Ok response, w) ->
  Response.stop_reason response = "tool_use" ->
  tool_uses response <> [] ->
  tool_run tm w (Response.content response) results
    (tool_calls_of response) w1 ->
  client np msgs w1 = (Raise e, w2) ->
  generate_response client model query hist tools (Some tm) st
  = (Ok ("Error in tool execution round 1: " +:+ exn_str e),
     mkState (heap st ++ [[user_turn query]; msgs]) w2
       (trace st ++ ModelCall api_params [user_turn query]
          :: tool_calls_of response ++ [ModelCall np msgs])).
Proof.
  intros api_params copy np msgs Hcall Hstop Huses Htools Hfault.
  rewrite generate_response_run. cbv zeta. fold api_params.
  rewrite Hcall. pose proof Hstop as Hstop'.
  apply String.eqb_eq in Hstop'. rewrite Hstop'.
  set (st1 := mkState _ w _).
  rewrite (sequential_run client response api_params tm 2 st1
             (length (heap st)) (api_params_messages _ _ _ _)).
  unfold loop_from. change (Z.to_nat (2 - 0)) with 2%nat.
  destruct (round_cases 1 api_params tm 2 (heap st1) [user_turn query]
              0%Z response (loop_start st1 (length (heap st)))
              ltac:(simpl; unfold deref; rewrite list_lookup_middle;
                    reflexivity)
              (guard_holds 2 0 response ltac:(lia) Hstop))
    as (rs & w1' & Htools' & Hstep).
  cbv zeta in Hstep. simpl world in Htools'.
  destruct (tool_run_functional _ _ _ _ _ _ _ _ _ Htools' Htools)
    as (-> & _ & ->).
  pose proof (tool_run_some _ _ _ _ _ _ Htools Huses) as Hsome.
  rewrite Hstep. clear Hstep.
  destruct results as [|r rs]; [contradiction|].
  unfold api_params at 1. rewrite api_params_system.
  fold api_params. simpl heap. simpl app.
  change (length (heap st ++ [[user_turn query]])) with copy.
  fold np. fold msgs. rewrite Hfault. simpl.
  rewrite <- !app_assoc. reflexivity.
Qed.

(** X14.  The legacy handler sends one request of its own making: the
    generator's model, temperature 0, 800 tokens, the system text of
    [base_params], and no tools, whatever else [base_params] holds.  Its
    messages are a copy of the caller's followed by the assistant turn
    and, only when there was a tool-use block, one turn with the
    results. *)
Theorem legacy_request response bp (tm : ToolManager) (st : State)
    original sys :
  Params.messages bp = Some original ->
  Params.system bp = Some sys ->
  exists results w1,
    tool_run tm (world st) (Response.content response) results
      (tool_calls_of response) w1
    /\ (results = [] <-> tool_uses response = [])
    /\ trace (snd (_handle_tool_execution client model response bp tm st))
       = trace st ++ tool_calls_of response
         ++ [ModelCall
               (Params.mk (Some model) (Some 0%Z) (Some 800%Z)
                  (Some (length (heap st))) (Some sys) None None)
               (deref (heap st) original
                ++ assistant_turn response
                   :: match results with
                      | [] => []
                      | _ :: _ => [results_turn results]
                      end)].
Proof.
  intros Hm Hsys.
  destruct (legacy_run client model response bp tm st original Hm)
    as (rs & evs & w' & Htools & Hrun).
  cbv zeta in Hrun.
  pose proof (tool_run_calls _ _ _ _ _ _ Htools) as Hevs.
  change (evs = tool_calls_of response) in Hevs. subst evs.
  exists rs, w'. split; [exact Htools|]. split.
  - split.
    + intros ->. apply tool_run_ids in Htools. simpl in Htools.
      fold (tool_uses response) in Htools.
      destruct (tool_uses response); [reflexivity | discriminate Htools].
    + intros Hnone.
      destruct (tool_run_nothing _ _ _ _ _ _ Htools Hnone) as (H & _).
      exact H.
  - rewrite Hrun, Hsys.
    destruct (client _ _ w') as [[final|e] w''];
      [rewrite first_text_state|]; reflexivity.
Qed.

(** X15.  The usual run.  Let the first response ask for tool use and
    let the response to the tool results not ask for it.  If that second
    response has no content, [generate_response] returns the sentinel
    ["No response generated"]; if its first block has text, it returns
    that text.  In both cases the tools of the first response have been
    executed once, exactly two model calls have been made and nothing
    has been printed. *)
Theorem one_round_answer query hist tools (tm : ToolManager)
    (st : State) response w results w1 final w2 :
  let api_params := api_params_for model (length (heap st)) hist tools in
  let copy := length (heap st ++ [[user_turn query]]) in
  let np :=
    Params.with_system (system_content hist)
      (Params.with_messages copy api_params) in
  let msgs :=
    [user_turn query; assistant_turn response; results_turn results] in
  let st' :=
    mkState (heap st ++ [[user_turn query]; msgs]) w2
      (trace st ++ ModelCall api_params [user_turn query]
         :: tool_calls_of response ++ [ModelCall np msgs]) in
  client api_params [user_turn query] (world st) = (Ok response, w) ->
  Response.stop_reason response = "tool_use" ->
  tool_uses response <> [] ->
  tool_run tm w (Response.content response) results
    (tool_calls_of response) w1 ->
  client np msgs w1 = (Ok final, w2) ->
  Response.stop_reason final <> "tool_use" ->
  (Response.content final = [] ->
   generate_response client model query hist tools (Some tm) st
   = (Ok "No response generated", st'))
  /\ (forall block rest t,
        Response.content final = block :: rest ->
        Block.text block = Some t ->
        generate_response client model query hist tools (Some tm) st
        = (Ok t, st')).
Proof.
  intros api_params copy np msgs st' Hcall Hstop Huses Htools Hnext Hend.
  assert (Hseq :
    _handle_sequential_tool_execution client response api_params tm 2
      (mkState (heap st ++ [[user_turn query]]) w
         (trace st ++ [ModelCall api_params [user_turn query]]))
    = final_text final st').
  { set (st1 := mkState _ w _).
    rewrite (sequential_run client response api_params tm 2 st1
               (length (heap st)) (api_params_messages _ _ _ _)).
    unfold loop_from. change (Z.to_nat (2 - 0)) with 2%nat.
    destruct (round_cases 1 api_params tm 2 (heap st1) [user_turn query]
                0%Z response (loop_start st1 (length (heap st)))
                ltac:(simpl; unfold deref; rewrite list_lookup_middle;
                      reflexivity)
                (guard_holds 2 0 response ltac:(lia) Hstop))
      as (rs & w1' & Htools' & Hstep).
    cbv zeta in Hstep. simpl world in Htools'.
    destruct (tool_run_functional _ _ _ _ _ _ _ _ _ Htools' Htools)
      as (-> & _ & ->).
    pose proof (tool_run_some _ _ _ _ _ _ Htools Huses) as Hsome.
    rewrite Hstep. clear Hstep.
    destruct results as [|r rs]; [contradiction|].
    unfold api_params at 1. rewrite api_params_system.
    fold api_params. simpl heap. simpl app.
    change (length (heap st ++ [[user_turn query]])) with copy.
    fold np. fold msgs. rewrite Hnext.
    rewrite while_rounds_step.
    replace (loop_guard 2 (0 + 1) final) with false.
    2:{ unfold loop_guard. apply String.eqb_neq in Hend. rewrite Hend.
        reflexivity. }
    unfold finish. subst st'. simpl trace.
    rewrite <- !app_assoc. reflexivity. }
  assert (Hgen : forall text,
    final_text final st' = (Ok text, st') ->
    generate_response client model query hist tools (Some tm) st
    = (Ok text, st')).
  { intros text Hft. rewrite generate_response_run. cbv zeta.
    fold api_params. rewrite Hcall. pose proof Hstop as Hstop'.
    apply String.eqb_eq in Hstop'. rewrite Hstop', Hseq, Hft.
    reflexivity. }
  split.
  - intros Hc. apply Hgen. unfold final_text. rewrite Hc. reflexivity.
  - intros block rest t Hc Ht. apply Hgen.
    unfold final_text, first_text. rewrite Hc, Ht. reflexivity.
Qed.

(** X16.  [_execute_tools] returns the empty list exactly when the
    response has no tool-use block, and then it leaves the world and the
    trace as they were.  A tool that fails does not make the list empty:
    the [break] of the loop is never taken because of a failure. *)
Theorem execute_tools_empty response (tm : ToolManager) (st : State) :
  (fst (_execute_tools response tm st) = Ok [] <-> tool_uses response = [])
  /\ (tool_uses response = [] ->
      _execute_tools response tm st = (Ok [], st)).
Proof.
  destruct (execute_tools_run tm response st) as (rs & evs & w' & Heq & Hrun).
  rewrite Heq. simpl. split; [split|].
  - intros H. inversion H; subst.
    apply tool_run_ids in Hrun. simpl in Hrun.
    fold (tool_uses response) in Hrun.
    destruct (tool_uses response); [reflexivity | discriminate Hrun].
  - intros Hnone.
    destruct (tool_run_nothing _ _ _ _ _ _ Hrun Hnone) as (-> & _).
    reflexivity.
  - intros Hnone.
    destruct (tool_run_nothing _ _ _ _ _ _ Hrun Hnone) as (-> & -> & ->).
    rewrite app_nil_r. destruct st; reflexivity.
Qed.

Lemma tool_run_app (tm : ToolManager) w c1 r1 e1 w1 c2 r2 e2 w2 :
  tool_run tm w c1 r1 e1 w1 ->
  tool_run tm w1 c2 r2 e2 w2 ->
  tool_run tm w (c1 ++ c2) (r1 ++ r2) (e1 ++ e2) w2.
Proof.
  induction 1; intros H2; simpl.
  - exact H2.
  - apply run_skip; auto.
  - eapply run_ok; eauto.
  - eapply run_error; eauto.
Qed.

(** X17.  Executing the tools of a content list that is the
    concatenation of two is executing those of the first part and then,
    in the state this leaves, those of the second: the results are the
    two result lists in a row. *)
Theorem execute_tools_app c1 c2 stop (tm : ToolManager) (st : State) :
  exists rs1 st1 rs2 st2,
    _execute_tools (Response.mk c1 stop) tm st = (Ok rs1, st1)
    /\ _execute_tools (Response.mk c2 stop) tm st1 = (Ok rs2, st2)
    /\ _execute_tools (Response.mk (c1 ++ c2) stop) tm st
       = (Ok (rs1 ++ rs2), st2).
Proof.
  destruct (execute_tools_run tm (Response.mk c1 stop) st)
    as (rs1 & e1 & w1 & Heq1 & Hrun1).
  set (st1 := mkState (heap st) w1 (trace st ++ e1)) in *.
  destruct (execute_tools_run tm (Response.mk c2 stop) st1)
    as (rs2 & e2 & w2 & Heq2 & Hrun2).
  destruct (execute_tools_run tm (Response.mk (c1 ++ c2) stop) st)
    as (rs & e & w & Heq & Hrun).
  simpl in Hrun1, Hrun2, Hrun.
  pose proof (tool_run_app _ _ _ _ _ _ _ _ _ _ Hrun1 Hrun2) as Happ.
  destruct (tool_run_functional _ _ _ _ _ _ _ _ _ Hrun Happ)
    as (-> & -> & ->).
  eexists rs1, st1, rs2, _. split; [exact Heq1|]. split; [exact Heq2|].
  rewrite Heq. subst st1. simpl. rewrite app_assoc. reflexivity.
Qed.

End Further.

(** ** Runs on the concrete collaborators *)

(** The claim C1 as stated fails: every response of [stuck_client] has
    stop reason ["tool_use"], and so has the initial response, yet the
    handler with [max_rounds = 2] makes no model call at all: the first
    round finds no tool call to execute and breaks. *)
Lemma round_bound_needs_tool_calls :
  (forall p ms w, exists r w',
      stuck_client p ms w = (Ok r, w')
      /\ Response.stop_reason r = "tool_use")
  /\ Response.stop_reason empty_request = "tool_use"
  /\ _handle_sequential_tool_execution stuck_client empty_request
       demo_params mock_tools 2 demo_state
     = (Ok "No response generated",
        mkState
          [[Message.mk "user" (Message.Text "test")];
           [Message.mk "user" (Message.Text "test");
            Message.mk "assistant" (Message.Blocks [])]]
          0%nat [])
  /\ length (List.filter is_model_call
               (trace (snd (_handle_sequential_tool_execution stuck_client
                              empty_request demo_params mock_tools 2
                              demo_state)))) <> 2%nat.
Proof.
  split.
  { intros p ms w. exists empty_request, (S w). split; reflexivity. }
  split; [reflexivity|]. split; [reflexivity|].
  vm_compute. discriminate.
Qed.

Lemma two_rounds_then_stop_witness :
  exists st',
    _handle_sequential_tool_execution chatty_client chatty_request
      demo_params mock_tools 2 demo_state = (Ok "Let me look that up.", st')
    /\ length (List.filter is_model_call (trace st')) = 2%nat.
Proof.
  destruct (two_rounds_then_stop chatty_client chatty_request demo_params
              mock_tools demo_state 0%nat "system" eq_refl eq_refl)
    as (r1 & r2 & ms1 & ms2 & st' & _ & _ & Htext & Htrace & Hcount & _
        & _ & _ & (w & w' & Hr2)).
  - intros p ms w. exists chatty_request, (S w).
    split; [reflexivity|]. split; [reflexivity | discriminate].
  - reflexivity.
  - discriminate.
  - exists st'. split.
    + apply (Htext note_block [search_block]).
      * unfold chatty_client in Hr2. inversion Hr2. reflexivity.
      * reflexivity.
    + rewrite Htrace. exact Hcount.
Defined.

Lemma model_fault_in_round_witness :
  fst (_handle_sequential_tool_execution flaky_client chatty_request
         demo_params mock_tools 2 demo_state)
  = Ok "Error in tool execution round 2: API call failed".
Proof.
  edestruct (model_fault_in_round flaky_client chatty_request demo_params
               mock_tools 2 demo_state 0%nat (0 + 1)%Z chatty_request)
    as [Hrun _].
  - reflexivity.
  - eapply head_next.
    + apply head_entry.
    + reflexivity.
    + vm_compute. reflexivity.
    + vm_compute. reflexivity.
  - reflexivity.
  - vm_compute. reflexivity.
  - vm_compute. reflexivity.
  - rewrite Hrun. reflexivity.
Defined.

Lemma empty_round_breaks_witness :
  fst (_handle_sequential_tool_execution idle_client chatty_request
         demo_params mock_tools 2 demo_state)
  = Ok "Let me look that up."
  /\ length (List.filter is_model_call
               (trace (snd (_handle_sequential_tool_execution idle_client
                              chatty_request demo_params mock_tools 2
                              demo_state)))) = 1%nat.
Proof.
  edestruct (empty_round_breaks idle_client chatty_request demo_params
               mock_tools 2 demo_state 0%nat (0 + 1)%Z
               (Response.mk [note_block] "tool_use"))
    as (Hrun & _).
  - reflexivity.
  - eapply head_next.
    + apply head_entry.
    + reflexivity.
    + vm_compute. reflexivity.
    + vm_compute. reflexivity.
  - reflexivity.
  - reflexivity.
  - rewrite Hrun. split; reflexivity.
Defined.

Lemma terminal_response_text_witness :
  fst (_handle_sequential_tool_execution silent_client chatty_request
         demo_params mock_tools 2 demo_state)
  = Ok "No response generated"
  /\ fst (_handle_sequential_tool_execution direct_client chatty_request
            demo_params mock_tools 2 demo_state)
     = Ok "Fallback response".
Proof.
  split.
  - edestruct (terminal_response_text silent_client chatty_request
                 demo_params mock_tools 2 demo_state 0%nat
                 (Response.mk [] "end_turn"))
      as (Hempty & _).
    + reflexivity.
    + vm_compute. reflexivity.
    + rewrite (Hempty eq_refl). reflexivity.
  - edestruct (terminal_response_text direct_client chatty_request
                 demo_params mock_tools 2 demo_state 0%nat final_answer)
      as (_ & Htext).
    + reflexivity.
    + vm_compute. reflexivity.
    + rewrite (Htext answer_block [] "Fallback response" eq_refl eq_refl).
      reflexivity.
Defined.

Lemma direct_answer_witness :
  fst (generate_response direct_client "test-model" "What is machine learning?"
         None (Some search_tools) (Some mock_tools) blank_state)
  = Ok "Fallback response"
  /\ length (trace (snd (generate_response direct_client "test-model"
                           "What is machine learning?" None
                           (Some search_tools) (Some mock_tools)
                           blank_state))) = 1%nat.
Proof.
  destruct (direct_answer direct_client "test-model"
              "What is machine learning?" None (Some search_tools)
              (Some mock_tools) blank_state final_answer 1%nat)
    as (_ & Hstate & Htext).
  - reflexivity.
  - discriminate.
  - split.
    + rewrite (Htext answer_block [] "Fallback response" eq_refl eq_refl).
      reflexivity.
    + rewrite Hstate. reflexivity.
Defined.

Lemma fallback_to_legacy_witness :
  fst (generate_response obliging_client "test-model" "Test query" None
         (Some search_tools) (Some mock_tools) blank_state)
  = Ok "Fallback response".
Proof.
  edestruct (fallback_to_legacy obliging_client "test-model" "Test query"
               None (Some search_tools) mock_tools blank_state bare_request
               1%nat (AttributeError "ToolUseBlock" "text"))
    as (_ & results & w' & _ & _ & _ & Hfinal & _).
  - reflexivity.
  - reflexivity.
  - vm_compute. reflexivity.
  - edestruct (Hfinal final_answer) as (_ & Htext).
    + vm_compute. reflexivity.
    + rewrite (Htext answer_block [] "Fallback response" eq_refl eq_refl).
      reflexivity.
Defined.

(** The failing outline call yields its error result and the search after
    it is still executed. *)
Example execute_tools_isolates_failure :
  fst (_execute_tools mixed_request picky_tools blank_state)
  = Ok [ToolResult.mk "tool_result" "tool_0"
          "Tool execution error: Tool failed";
        ToolResult.mk "tool_result" "tool_1" "Mock search results"].
Proof. reflexivity. Qed.

(** Two rounds against [chatty_client]: both model calls carry the tools
    and the tool choice of [demo_params], and the caller's list at address
    0 still holds the single user turn. *)
Example two_rounds_requests :
  map (fun ev =>
         match ev with
         | ModelCall p ms => (Params.tools p, Params.tool_choice p, length ms)
         | _ => (None, None, 0%nat)
         end)
      (List.filter is_model_call
         (trace (snd (_handle_sequential_tool_execution chatty_client
                        chatty_request demo_params mock_tools 2 demo_state))))
  = [(Some search_tools, Some (ToolChoice.mk "auto"), 3%nat);
     (Some search_tools, Some (ToolChoice.mk "auto"), 5%nat)]
  /\ heap (snd (_handle_sequential_tool_execution chatty_client
                  chatty_request demo_params mock_tools 2 demo_state))
       !! 0%nat
     = Some [Message.mk "user" (Message.Text "test")].
Proof. split; reflexivity. Qed.

(** A call without tools and with a history: no tool keys in the request,
    and the history after the prompt. *)
Example request_with_history :
  trace (snd (generate_response direct_client "test-model" "Follow-up question"
                (Some "Previous conversation context") None None
                blank_state))
  = [ModelCall
       (Params.mk (Some "test-model") (Some 0%Z) (Some 800%Z) (Some 0%nat)
          (Some (SYSTEM_PROMPT +:+ nl +:+ nl +:+ "Previous conversation:"
                 +:+ nl +:+ "Previous conversation context"))
          None None)
       [Message.mk "user" (Message.Text "Follow-up question")]].
Proof. reflexivity. Qed.

(** *** Witnesses of the further properties *)

Lemma always_tool_use_exact_rounds_witness :
  exists st',
    _handle_sequential_tool_execution chatty_client chatty_request
      demo_params mock_tools 3 demo_state = (Ok "Let me look that up.", st')
    /\ model_calls (trace st') = 3%nat.
Proof.
  destruct (always_tool_use_exact_rounds chatty_client chatty_request
              demo_params mock_tools 3 demo_state 0%nat "system"
              eq_refl eq_refl)
    as (last & st' & evs & _ & Hrun & Ht & Hn).
  - intros p ms w. exists chatty_request, (S w).
    split; [reflexivity|]. split; [reflexivity | discriminate].
  - reflexivity.
  - discriminate.
  - exists st'. split.
    + rewrite Hrun.
      assert (Hfst : fst (final_text last st') = Ok "Let me look that up.")
        by (rewrite <- Hrun; reflexivity).
      pose proof (final_text_state last st') as Hsnd.
      destruct (final_text last st') as [r s]. simpl in Hfst, Hsnd.
      subst. reflexivity.
    + rewrite Ht. exact Hn.
Defined.

Lemma sequential_raises_only_witness :
  exists block,
    Block.text block = None
    /\ In block (Response.content bare_request)
    /\ fst (_handle_sequential_tool_execution obliging_client bare_request
              demo_params mock_tools 2 demo_state)
       = Raise (AttributeError (Block.class_name block) "text").
Proof.
  destruct (_handle_sequential_tool_execution obliging_client bare_request
              demo_params mock_tools 2 demo_state) as [r st'] eqn:Hrun.
  assert (Hr : exists e, r = Raise e).
  { apply (f_equal fst) in Hrun. vm_compute in Hrun. subst r. eauto. }
  destruct Hr as (e & ->).
  destruct (sequential_raises_only obliging_client bare_request demo_params
              mock_tools 2 demo_state e st' Hrun)
    as [(_ & Hm) | [(_ & Hs) | (original & cur & rc & block & rest & Hm
                                 & Hloop & Hc & Hb & ->)]].
  - discriminate Hm.
  - discriminate Hs.
  - exists block. split; [exact Hb|]. split; [|reflexivity].
    inversion Hm; subst original.
    vm_compute in Hloop. inversion Hloop; subst cur.
    vm_compute in Hc. inversion Hc. left. reflexivity.
Defined.


Lemma missing_messages_key_witness :
  _handle_sequential_tool_execution chatty_client chatty_request
    no_messages_params mock_tools 2 demo_state
  = (Raise (KeyError "messages"), demo_state)
  /\ _handle_tool_execution chatty_client "test-model" chatty_request
       no_messages_params mock_tools demo_state
     = (Raise (KeyError "messages"), demo_state).
Proof.
  apply (missing_messages_key chatty_client "test-model" chatty_request
           no_messages_params mock_tools 2 demo_state).
  reflexivity.
Defined.

Lemma missing_system_key_witness :
  fst (_handle_sequential_tool_execution chatty_client chatty_request
         no_system_params mock_tools 2 demo_state)
  = Raise (KeyError "system")
  /\ trace (snd (_handle_sequential_tool_execution chatty_client
                   chatty_request no_system_params mock_tools 2 demo_state))
     = [ToolCall "search_course_content" [("query", "test")]].
Proof.
  destruct (missing_system_key chatty_client "test-model" chatty_request
              no_system_params mock_tools 2 demo_state 0%nat)
    as (results & w1 & _ & Hrun & _).
  - reflexivity.
  - reflexivity.
  - lia.
  - reflexivity.
  - discriminate.
  - rewrite Hrun. split; reflexivity.
Defined.

Lemma first_round_reaches_model_witness :
  exists tail,
    trace (snd (_handle_sequential_tool_execution direct_client
                  chatty_request demo_params broken_tools 2 demo_state))
    = ToolCall "search_course_content" [("query", "test")]
      :: ModelCall
           (Params.with_system "system"
              (Params.with_messages 1%nat demo_params))
           [Message.mk "user" (Message.Text "test");
            assistant_turn chatty_request;
            results_turn
              [ToolResult.mk "tool_result" "tool_1"
                 "Tool execution error: Tool failed"]]
      :: tail.
Proof.
  destruct (first_round_reaches_model direct_client chatty_request
              demo_params broken_tools 2 demo_state 0%nat "system")
    as (results & w1 & tail & Htools & _ & Ht).
  - reflexivity.
  - reflexivity.
  - lia.
  - reflexivity.
  - discriminate.
  - exists tail. rewrite Ht.
    assert (Hres : results
                   = [ToolResult.mk "tool_result" "tool_1"
                        "Tool execution error: Tool failed"]).
    { assert (Hexp :
        tool_run broken_tools 0%nat (Response.content chatty_request)
          [ToolResult.mk "tool_result" "tool_1"
             "Tool execution error: Tool failed"]
          (tool_calls_of chatty_request) 0%nat).
      { apply run_skip; [discriminate|].
        apply (run_error broken_tools 0%nat search_block []
                 (mkExn "Exception" "Tool failed") 0%nat [] [] 0%nat);
          [reflexivity | reflexivity | apply run_done]. }
      destruct (tool_run_functional _ _ _ _ _ _ _ _ _ Htools Hexp)
        as (Hr & _).
      exact Hr. }
    rewrite Hres. reflexivity.
Defined.

Lemma fallback_runs_tools_twice_witness :
  exists mid last,
    trace (snd (generate_response obliging_client "test-model" "Test query"
                  None (Some search_tools) (Some mock_tools) blank_state))
    = ModelCall (api_params_for "test-model" 0%nat None (Some search_tools))
        [user_turn "Test query"]
      :: tool_calls_of bare_request ++ mid
      ++ Printed (fallback_line (AttributeError "ToolUseBlock" "text"))
         :: tool_calls_of bare_request ++ [last]
    /\ is_model_call last = true.
Proof.
  eapply (fallback_runs_tools_twice obliging_client "test-model"
            "Test query" None (Some search_tools) mock_tools blank_state
            bare_request 1%nat (AttributeError "ToolUseBlock" "text")).
  - reflexivity.
  - reflexivity.
  - vm_compute. reflexivity.
Defined.

Lemma without_tool_manager_witness :
  generate_response chatty_client "test-model" "Test query" None
    (Some search_tools) None blank_state
  = (Ok "Let me look that up.",
     mkState [[user_turn "Test query"]] 1%nat
       [ModelCall
          (api_params_for "test-model" 0%nat None (Some search_tools))
          [user_turn "Test query"]]).
Proof.
  destruct (without_tool_manager chatty_client "test-model" "Test query"
              None (Some search_tools) blank_state chatty_request 1%nat
              eq_refl) as (Hrun & _).
  rewrite Hrun. reflexivity.
Defined.

Lemma initial_fault_propagates_witness :
  fst (generate_response dead_client "test-model" "Test query" None
         (Some search_tools) (Some mock_tools) blank_state)
  = Raise (mkExn "Exception" "API call failed").
Proof.
  rewrite (initial_fault_propagates dead_client "test-model" "Test query"
             None (Some search_tools) (Some mock_tools) blank_state
             (mkExn "Exception" "API call failed") 1%nat eq_refl).
  reflexivity.
Defined.

Lemma loop_fault_is_the_answer_witness :
  fst (generate_response flaky_client "test-model" "Test query" None
         (Some search_tools) (Some mock_tools) blank_state)
  = Ok "Error in tool execution round 1: API call failed".
Proof.
  erewrite (loop_fault_is_the_answer flaky_client "test-model" "Test query"
              None (Some search_tools) mock_tools blank_state chatty_request
              1%nat
              [ToolResult.mk "tool_result" "tool_1" "Mock search results"]
              1%nat (mkExn "Exception" "API call failed") 2%nat).
  - reflexivity.
  - reflexivity.
  - reflexivity.
  - discriminate.
  - apply run_skip; [discriminate|].
    apply (run_ok mock_tools 1%nat search_block [] "Mock search results"
             1%nat [] [] 1%nat); [reflexivity | reflexivity | apply run_done].
  - reflexivity.
Defined.

Lemma legacy_request_witness :
  trace (snd (_handle_tool_execution direct_client "test-model"
                chatty_request demo_params mock_tools demo_state))
  = [ToolCall "search_course_content" [("query", "test")];
     ModelCall
       (Params.mk (Some "test-model") (Some 0%Z) (Some 800%Z) (Some 1%nat)
          (Some "system") None None)
       [Message.mk "user" (Message.Text "test");
        assistant_turn chatty_request;
        results_turn
          [ToolResult.mk "tool_result" "tool_1" "Mock search results"]]].
Proof.
  destruct (legacy_request direct_client "test-model" chatty_request
              demo_params mock_tools demo_state 0%nat "system"
              eq_refl eq_refl)
    as (results & w1 & Htools & _ & Ht).
  rewrite Ht.
  assert (Hexp :
    tool_run mock_tools 0%nat (Response.content chatty_request)
      [ToolResult.mk "tool_result" "tool_1" "Mock search results"]
      (tool_calls_of chatty_request) 0%nat).
  { apply run_skip; [discriminate|].
    apply (run_ok mock_tools 0%nat search_block [] "Mock search results"
             0%nat [] [] 0%nat); [reflexivity | reflexivity | apply run_done]. }
  destruct (tool_run_functional _ _ _ _ _ _ _ _ _ Htools Hexp) as (-> & _).
  reflexivity.
Defined.

Lemma one_round_answer_witness :
  fst (generate_response helpful_client "test-model"
         "What is machine learning?" None (Some search_tools)
         (Some mock_tools) blank_state)
  = Ok "Fallback response"
  /\ model_calls
       (trace (snd (generate_response helpful_client "test-model"
                      "What is machine learning?" None (Some search_tools)
                      (Some mock_tools) blank_state))) = 2%nat.
Proof.
  edestruct (one_round_answer helpful_client "test-model"
               "What is machine learning?" None (Some search_tools)
               mock_tools blank_state chatty_request 1%nat
               [ToolResult.mk "tool_result" "tool_1" "Mock search results"]
               1%nat final_answer 2%nat)
    as (_ & Htext).
  - reflexivity.
  - reflexivity.
  - discriminate.
  - apply run_skip; [discriminate|].
    apply (run_ok mock_tools 1%nat search_block [] "Mock search results"
             1%nat [] [] 1%nat); [reflexivity | reflexivity | apply run_done].
  - reflexivity.
  - discriminate.
  - rewrite (Htext answer_block [] "Fallback response" eq_refl eq_refl).
    split; reflexivity.
Defined.

(** The bound of four model calls is reached: the initial call, two
    rounds, and the legacy call of the fallback. *)
Example four_model_calls_reached :
  model_calls
    (trace (snd (generate_response obliging_client "test-model" "Test query"
                   None (Some search_tools) (Some mock_tools) blank_state)))
  = 4%nat.
Proof. reflexivity. Qed.

(** *** Where the code leaves its own contract *)

(** C6.  A first response with stop reason ["end_turn"] and no content
    makes [generate_response] raise [IndexError] after the one model
    call: [response.content[0].text] on the direct path has no guard.
    The sequential handler, given the same empty response as its terminal
    response, returns the sentinel. *)
Lemma direct_answer_empty_response_raises :
  generate_response silent_client "test-model" "What is machine learning?"
    None (Some search_tools) (Some mock_tools) blank_state
  = (Raise IndexError,
     mkState [[user_turn "What is machine learning?"]] 1%nat
       [ModelCall (api_params_for "test-model" 0%nat None (Some search_tools))
          [user_turn "What is machine learning?"]])
  /\ Response.stop_reason (Response.mk [] "end_turn") <> "tool_use"
  /\ fst (_handle_sequential_tool_execution silent_client chatty_request
            demo_params mock_tools 2 demo_state)
     = Ok "No response generated".
Proof. split; [reflexivity|]. split; [discriminate | reflexivity]. Qed.

(** C8.  When the round bound is hit on a response that consists of a
    tool-use block alone, the terminal response has content, yet the
    handler does not return: reading [.text] on the tool-use block
    raises [AttributeError], after the two model calls. *)
Lemma terminal_tool_use_block_raises :
  fst (while_rounds insistent_client 2 demo_params mock_tools 2 1%nat 0
         bare_request (loop_start demo_state 0%nat))
  = Ok (Fell bare_request 2)
  /\ Response.content bare_request = [search_block]
  /\ fst (_handle_sequential_tool_execution insistent_client bare_request
            demo_params mock_tools 2 demo_state)
     = Raise (mkExn "AttributeError"
                "'ToolUseBlock' object has no attribute 'text'")
  /\ model_calls
       (trace (snd (_handle_sequential_tool_execution insistent_client
                      bare_request demo_params mock_tools 2 demo_state)))
     = 2%nat.
Proof. repeat split. Qed.

(** C3.  The fallback is taken, and [generate_response] still raises:
    when the legacy model call raises, its exception leaves
    [generate_response]; when it answers with no content,
    [final_response.content[0].text] raises [IndexError].  In both runs
    the fallback line has been printed and the legacy request was the
    fourth model call. *)
Lemma fallback_legacy_call_raises :
  fst (generate_response fickle_client "test-model" "Test query" None
         (Some search_tools) (Some mock_tools) blank_state)
  = Raise (mkExn "BadRequestError" "tools must be defined")
  /\ fst (generate_response hollow_client "test-model" "Test query" None
            (Some search_tools) (Some mock_tools) blank_state)
     = Raise IndexError
  /\ List.filter (fun ev => negb (is_model_call ev))
       (trace (snd (generate_response fickle_client "test-model"
                      "Test query" None (Some search_tools)
                      (Some mock_tools) blank_state)))
     = [ToolCall "search_course_content" [("query", "test")];
        ToolCall "search_course_content" [("query", "test")];
        Printed
          "Sequential tool execution failed, falling back: 'ToolUseBlock' object has no attribute 'text'";
        ToolCall "search_course_content" [("query", "test")]]
  /\ model_calls
       (trace (snd (generate_response fickle_client "test-model"
                      "Test query" None (Some search_tools)
                      (Some mock_tools) blank_state)))
     = 4%nat.
Proof. repeat split. Qed.
